(** * Run configurations of spyder/preferences/runconfig.py

    A shallow embedding of the run-configuration record, of the bounded
    history kept in the configuration store, and of the two dialogs that
    save to it, followed by the properties of the specification. *)

From stdpp Require Import gmap strings list fin_maps.

Local Open Scope string_scope.
Local Open Scope Z_scope.
Set Warnings "-register-all".

(** ** Python values and the operations the module performs on them *)

Module Py.

(** The values that travel through the configuration store: [VSeq] stands
    for both tuples and lists, [VDict] for a dict with string keys, kept
    in insertion order (the order in which iterating it yields its keys). *)
Inductive value :=
| VNone
| VBool (b : bool)
| VInt (z : Z)
| VStr (s : string)
| VSeq (items : list value)
| VDict (d : list (string * value)).

Inductive exn := ValueError | TypeError | AttributeError | OverflowError.

Inductive result (A : Type) :=
| Ok (a : A)
| Raise (e : exn).
Arguments Ok {A} a.
Arguments Raise {A} e.

Definition rbind {A B} (r : result A) (k : A -> result B) : result B :=
  match r with
  | Ok a => k a
  | Raise e => Raise e
  end.

Abbreviation dict := (list (string * value)).

(** [d.get(key, default)] *)
Fixpoint dict_get (d : dict) (key : string) (default : value) : value :=
  match d with
  | [] => default
  | (k, v) :: d' => if String.eqb key k then v else dict_get d' key default
  end.

(** Truth value of an object, as tested by [if]. *)
Definition truthy (v : value) : bool :=
  match v with
  | VNone => false
  | VBool b => b
  | VInt z => negb (z =? 0)
  | VStr s => negb (String.eqb s EmptyString)
  | VSeq items => match items with [] => false | _ => true end
  | VDict d => match d with [] => false | _ => true end
  end.

(** The items produced by [for x in v]: a str yields its characters, a
    dict its keys; None, bool and int are not iterable. *)
Definition iter (v : value) : result (list value) :=
  match v with
  | VSeq items => Ok items
  | VStr s => Ok (map (fun c => VStr (String c EmptyString)) (String.list_ascii_of_string s))
  | VDict d => Ok (map (fun kv => VStr (fst kv)) d)
  | VNone | VBool _ | VInt _ => Raise TypeError
  end.

(** The unpacking [a, b = v]: TypeError when [v] is not iterable,
    ValueError when it does not yield exactly two items. *)
Definition unpack2 (v : value) : result (value * value) :=
  rbind (iter v) (fun items =>
    match items with
    | [a; b] => Ok (a, b)
    | _ => Raise ValueError
    end).

Definition slice_to_int {A} (l : list A) (stop : Z) : list A :=
  if 0 <=? stop then take (Z.to_nat stop) l
  else take (length l - Z.to_nat (- stop)) l.

(** The slice [l[:stop]]: None keeps the whole list, a negative stop
    counts from the end, a bool is the int 0 or 1. *)
Definition slice_to {A} (l : list A) (stop : value) : result (list A) :=
  match stop with
  | VNone => Ok l
  | VInt z => Ok (slice_to_int l z)
  | VBool b => Ok (slice_to_int l (Z.b2z b))
  | VStr _ | VSeq _ | VDict _ => Raise TypeError
  end.

(** [fname == v] for a str [fname]: a str equals only the same str. *)
Definition eq_str (fname : string) (v : value) : bool :=
  match v with
  | VStr s => String.eqb fname s
  | _ => false
  end.

End Py.
Export Py.

(** ** The collaborators: configuration store, file system, user interface *)

Abbreviation conf_store := (gmap (string * string) value).

(** Modelled from the spec: the configuration store [CONF] of
    spyder.config.manager, a key/value store partitioned into sections
    with [get(section, key, default)] and [set(section, key, value)]. *)
Definition store_get (c : conf_store) (section option : string) (default : value) : value :=
  match c !! (section, option) with
  | Some v => v
  | None => default
  end.

Definition store_set (c : conf_store) (section option : string) (v : value) : conf_store :=
  <[(section, option) := v]> c.

(** What [os.path] answers. A str path never makes [isfile] raise; an int
    (or bool) argument is a file descriptor, which must fit a C int. *)
Record filesystem := {
  isfile : string -> bool;
  isdir : string -> bool;
  fd_isfile : Z -> bool
}.

Definition osp_isfile (fs : filesystem) (path : value) : result bool :=
  match path with
  | VStr s => Ok (isfile fs s)
  | VInt z =>
      if (-2147483648 <=? z) && (z <=? 2147483647) then Ok (fd_isfile fs z)
      else Raise OverflowError
  | VBool b => Ok (fd_isfile fs (Z.b2z b))
  | VNone | VSeq _ | VDict _ => Raise TypeError
  end.

(** A modal [QMessageBox.critical(parent, title, text)]. *)
Record message := { title : string; text : string }.

(** The state the module's functions act on: the store and the message
    boxes shown so far, oldest first. *)
Record world := {
  CONF : conf_store;
  shown : list message
}.

(** Computations that read and write the world and may raise. *)
Definition M (A : Type) := world -> result A * world.

Definition ret {A} (a : A) : M A := fun w => (Ok a, w).

Definition bind {A B} (m : M A) (k : A -> M B) : M B :=
  fun w =>
    match m w with
    | (Ok a, w') => k a w'
    | (Raise e, w') => (Raise e, w')
    end.

Definition lift {A} (r : result A) : M A := fun w => (r, w).

Definition raise {A} (e : exn) : M A := lift (Raise e).

(** [try: body except ValueError: handler] *)
Definition try_except_ValueError {A} (body handler : M A) : M A :=
  fun w =>
    match body w with
    | (Raise ValueError, w') => handler w'
    | other => other
    end.

Definition CONF_get (section option : string) (default : value) : M value :=
  fun w => (Ok (store_get (CONF w) section option default), w).

Definition CONF_set (section option : string) (v : value) : M unit :=
  fun w => (Ok tt, {| CONF := store_set (CONF w) section option v; shown := shown w |}).

Definition QMessageBox_critical (ttl txt : string) : M unit :=
  fun w => (Ok tt, {| CONF := CONF w; shown := shown w ++ [{| title := ttl; text := txt |}] |}).

Declare Scope run_scope.
Delimit Scope run_scope with run.
Notation "x <~ m ;; k" := (bind m (fun x => k))
  (at level 100, m at next level, right associativity) : run_scope.
Notation "m ;;; k" := (bind m (fun _ => k))
  (at level 100, right associativity) : run_scope.
Local Open Scope run_scope.

(** ** Option names *)

Definition CURRENT_INTERPRETER_OPTION := "default/interpreter/current".
Definition DEDICATED_INTERPRETER_OPTION := "default/interpreter/dedicated".
Definition SYSTERM_INTERPRETER_OPTION := "default/interpreter/systerm".
Definition WDIR_USE_SCRIPT_DIR_OPTION := "default/wdir/use_script_directory".
Definition WDIR_USE_CWD_DIR_OPTION := "default/wdir/use_cwd_directory".
Definition WDIR_USE_FIXED_DIR_OPTION := "default/wdir/use_fixed_directory".
Definition WDIR_FIXED_DIR_OPTION := "default/wdir/fixed_directory".

(** ** class RunConfiguration *)

Module RunConfiguration.

Record t := {
  args : value;
  args_enabled : value;
  wdir : value;
  wdir_enabled : value;
  current : value;
  systerm : value;
  interact : value;
  post_mortem : value;
  python_args : value;
  python_args_enabled : value;
  clear_namespace : value;
  console_namespace : value;
  file_dir : value;
  cw_dir : value;
  fixed_dir : value;
  dir : value
}.

(** The attribute assignments at the start of [__init__]. *)
Definition blank : t :=
  {| args := VNone; args_enabled := VNone; wdir := VNone; wdir_enabled := VNone;
     current := VNone; systerm := VNone; interact := VNone; post_mortem := VNone;
     python_args := VNone; python_args_enabled := VNone;
     clear_namespace := VNone; console_namespace := VNone;
     file_dir := VNone; cw_dir := VNone; fixed_dir := VNone; dir := VNone |}.

(** The body of [set] once [options] is known to be a dict. It reads the
    store and assigns fourteen attributes; [wdir] and [wdir_enabled] are
    not assigned. *)
Definition set_dict (c : conf_store) (options : dict) (self : t) : t :=
  {| args := dict_get options "args" (VStr EmptyString);
     args_enabled := dict_get options "args/enabled" (VBool false);
     wdir := wdir self;
     wdir_enabled := wdir_enabled self;
     current := dict_get options "current"
                  (store_get c "run" CURRENT_INTERPRETER_OPTION (VBool true));
     systerm := dict_get options "systerm"
                  (store_get c "run" SYSTERM_INTERPRETER_OPTION (VBool false));
     interact := dict_get options "interact"
                  (store_get c "run" "interact" (VBool false));
     post_mortem := dict_get options "post_mortem"
                  (store_get c "run" "post_mortem" (VBool false));
     python_args := dict_get options "python_args" (VStr EmptyString);
     python_args_enabled := dict_get options "python_args/enabled" (VBool false);
     clear_namespace := dict_get options "clear_namespace"
                  (store_get c "run" "clear_namespace" (VBool false));
     console_namespace := dict_get options "console_namespace"
                  (store_get c "run" "console_namespace" (VBool false));
     file_dir := dict_get options "file_dir"
                  (store_get c "run" WDIR_USE_SCRIPT_DIR_OPTION (VBool true));
     cw_dir := dict_get options "cw_dir"
                  (store_get c "run" WDIR_USE_CWD_DIR_OPTION (VBool false));
     fixed_dir := dict_get options "fixed_dir"
                  (store_get c "run" WDIR_USE_FIXED_DIR_OPTION (VBool false));
     dir := dict_get options "dir" (VStr EmptyString) |}.

(** [set(self, options)]: an [options] without a [get] method fails at
    the first statement, before any attribute is assigned. *)
Definition set (options : value) (self : t) : M t :=
  match options with
  | VDict d => fun w => (Ok (set_dict (CONF w) d self), w)
  | _ => raise AttributeError
  end.

(** [__init__] *)
Definition init : M t :=
  defaults <~ CONF_get "run" "defaultconfiguration" (VDict []);;
  set defaults blank.

Definition get (self : t) : dict :=
  [ ("args/enabled", args_enabled self);
    ("args", args self);
    ("workdir/enabled", wdir_enabled self);
    ("workdir", wdir self);
    ("current", current self);
    ("systerm", systerm self);
    ("interact", interact self);
    ("post_mortem", post_mortem self);
    ("python_args/enabled", python_args_enabled self);
    ("python_args", python_args self);
    ("clear_namespace", clear_namespace self);
    ("console_namespace", console_namespace self);
    ("file_dir", file_dir self);
    ("cw_dir", cw_dir self);
    ("fixed_dir", fixed_dir self);
    ("dir", dir self) ].

Definition get_working_directory (self : t) : value := dir self.

Definition get_arguments (self : t) : value :=
  if truthy (args_enabled self) then args self else VStr EmptyString.

Definition get_python_arguments (self : t) : value :=
  if truthy (python_args_enabled self) then python_args self else VStr EmptyString.

End RunConfiguration.

(** ** The run history *)

(** A [(filename, options)] tuple held in a Python list. *)
Abbreviation entry := (value * value)%type.

(** The tuple as the store keeps it. *)
Definition entry_value (e : entry) : value := VSeq [fst e; snd e].

(** The list comprehension of [_get_run_configurations]:
    [[(filename, options) for filename, options in items
      if osp.isfile(filename)]]. Each item is unpacked, then tested, in
    order; the first failure ends the comprehension. *)
Fixpoint comprehension (fs : filesystem) (items : list value) : result (list entry) :=
  match items with
  | [] => Ok []
  | item :: rest =>
      rbind (unpack2 item) (fun '(filename, options) =>
      rbind (osp_isfile fs filename) (fun keep =>
      rbind (comprehension fs rest) (fun kept =>
      Ok (if keep then (filename, options) :: kept else kept))))
  end.

Definition _get_run_configurations (fs : filesystem) : M (list entry) :=
  history_count <~ CONF_get "run" "history" (VInt 20);;
  try_except_ValueError
    (stored <~ CONF_get "run" "configurations" (VSeq []);;
     items <~ lift (iter stored);;
     kept <~ lift (comprehension fs items);;
     lift (slice_to kept history_count))
    (CONF_set "run" "configurations" (VSeq []);;;
     ret []).

Definition _set_run_configurations (configurations : list entry) : M unit :=
  history_count <~ CONF_get "run" "history" (VInt 20);;
  kept <~ lift (slice_to configurations history_count);;
  CONF_set "run" "configurations" (VSeq (map entry_value kept)).

(** The loop of [get_run_configuration]; falling off its end returns
    None. *)
Fixpoint scan_configurations (fname : string) (configurations : list entry)
  : M (option RunConfiguration.t) :=
  match configurations with
  | [] => ret None
  | (filename, options) :: rest =>
      if eq_str fname filename then
        runconf <~ RunConfiguration.init;;
        runconf <~ RunConfiguration.set options runconf;;
        ret (Some runconf)
      else scan_configurations fname rest
  end.

Definition get_run_configuration (fs : filesystem) (fname : string)
  : M (option RunConfiguration.t) :=
  configurations <~ _get_run_configurations fs;;
  scan_configurations fname configurations.

(** ** class RunConfigOptions *)

Module RunConfigOptions.

(** The widget: its two attributes and the state of its controls (the
    checked state of each button, the text of each line edit). *)
Record t := {
  dir : value;
  runconf : RunConfiguration.t;
  current_radio : bool;
  dedicated_radio : bool;
  systerm_radio : bool;
  clear_var_cb : bool;
  console_ns_cb : bool;
  post_mortem_cb : bool;
  clo_cb : bool;
  clo_edit : string;
  file_dir_radio : bool;
  cwd_radio : bool;
  fixed_dir_radio : bool;
  wd_edit : string;
  interact_cb : bool;
  pclo_cb : bool;
  pclo_edit : string;
  firstrun_cb : bool
}.

Definition with_runconf (self : t) (rc : RunConfiguration.t) : t :=
  {| dir := dir self; runconf := rc;
     current_radio := current_radio self; dedicated_radio := dedicated_radio self;
     systerm_radio := systerm_radio self; clear_var_cb := clear_var_cb self;
     console_ns_cb := console_ns_cb self; post_mortem_cb := post_mortem_cb self;
     clo_cb := clo_cb self; clo_edit := clo_edit self;
     file_dir_radio := file_dir_radio self; cwd_radio := cwd_radio self;
     fixed_dir_radio := fixed_dir_radio self; wd_edit := wd_edit self;
     interact_cb := interact_cb self; pclo_cb := pclo_cb self;
     pclo_edit := pclo_edit self; firstrun_cb := firstrun_cb self |}.

(** [get]: copies the controls into [self.runconf] and returns its
    mapping, together with the widget so updated. *)
Definition get (self : t) : dict * t :=
  let rc := runconf self in
  let rc' :=
    {| RunConfiguration.args := VStr (clo_edit self);
       RunConfiguration.args_enabled := VBool (clo_cb self);
       RunConfiguration.wdir := RunConfiguration.wdir rc;
       RunConfiguration.wdir_enabled := RunConfiguration.wdir_enabled rc;
       RunConfiguration.current := VBool (current_radio self);
       RunConfiguration.systerm := VBool (systerm_radio self);
       RunConfiguration.interact := VBool (interact_cb self);
       RunConfiguration.post_mortem := VBool (post_mortem_cb self);
       RunConfiguration.python_args := VStr (pclo_edit self);
       RunConfiguration.python_args_enabled := VBool (pclo_cb self);
       RunConfiguration.clear_namespace := VBool (clear_var_cb self);
       RunConfiguration.console_namespace := VBool (console_ns_cb self);
       RunConfiguration.file_dir := VBool (file_dir_radio self);
       RunConfiguration.cw_dir := VBool (cwd_radio self);
       RunConfiguration.fixed_dir := VBool (fixed_dir_radio self);
       RunConfiguration.dir := VStr (wd_edit self) |} in
  (RunConfiguration.get rc', with_runconf self rc').

Definition invalid_wdir_text (wdir : string) : string :=
  "The following working directory is not valid:<br><b>" +:+ wdir +:+ "</b>".

Definition is_valid (fs : filesystem) (self : t) : M bool :=
  let wdir := wd_edit self in
  if negb (fixed_dir_radio self) || isdir fs wdir then ret true
  else
    QMessageBox_critical "Run configuration" (invalid_wdir_text wdir);;;
    ret false.

(** [select_directory]. The two collaborators are given: what
    [getcwd_or_home()] answers, and what the directory chooser returns
    when opened at a base directory (the empty string when the user
    cancels). *)
Definition select_directory (fs : filesystem) (getcwd_or_home : string)
    (getexistingdirectory : string -> string) (self : t) : t :=
  let basedir := wd_edit self in
  let basedir := if negb (isdir fs basedir) then getcwd_or_home else basedir in
  let directory := getexistingdirectory basedir in
  if truthy (VStr directory) then
    {| dir := VStr directory; runconf := runconf self;
       current_radio := current_radio self; dedicated_radio := dedicated_radio self;
       systerm_radio := systerm_radio self; clear_var_cb := clear_var_cb self;
       console_ns_cb := console_ns_cb self; post_mortem_cb := post_mortem_cb self;
       clo_cb := clo_cb self; clo_edit := clo_edit self;
       file_dir_radio := file_dir_radio self; cwd_radio := cwd_radio self;
       fixed_dir_radio := fixed_dir_radio self; wd_edit := directory;
       interact_cb := interact_cb self; pclo_cb := pclo_cb self;
       pclo_edit := pclo_edit self; firstrun_cb := firstrun_cb self |}
  else self.

End RunConfigOptions.

(** ** The dialogs *)

(** The result code of a [QDialog]; [QDialog.accept] sets it to
    [Accepted]. *)
Inductive dialog_code := Rejected | Accepted.

Module RunConfigOneDialog.

Record t := {
  filename : value;
  runconfigoptions : option RunConfigOptions.t;
  result : dialog_code
}.

(** [accept]: returns the dialog as the call leaves it. Before [setup]
    the attribute [runconfigoptions] is None and has no [is_valid]. *)
Definition accept (fs : filesystem) (self : t) : M t :=
  match runconfigoptions self with
  | None => raise AttributeError
  | Some widget =>
      valid <~ RunConfigOptions.is_valid fs widget;;
      if negb valid then ret self
      else
        configurations <~ _get_run_configurations fs;;
        let '(options, widget') := RunConfigOptions.get widget in
        let configurations := (filename self, VDict options) :: configurations in
        _set_run_configurations configurations;;;
        ret {| filename := filename self;
               runconfigoptions := Some widget';
               result := Accepted |}
  end.

(** [get_configuration]: the configuration object of the widget. *)
Definition get_configuration (self : t) : Py.result RunConfiguration.t :=
  match runconfigoptions self with
  | None => Raise AttributeError
  | Some widget => Ok (RunConfigOptions.runconf widget)
  end.

End RunConfigOneDialog.

Module RunConfigDialog.

(** [combo] holds the item texts of the combo box, [stack] the widgets of
    the stacked widget, [currentIndex] the index the stack shows (-1 when
    it is empty). *)
Record t := {
  file_to_run : value;
  combo : list string;
  stack : list RunConfigOptions.t;
  currentIndex : Z;
  result : dialog_code
}.

(** [QComboBox.itemText]: the empty string when there is no such item. *)
Definition itemText (items : list string) (index : nat) : string :=
  match items !! index with
  | Some s => s
  | None => EmptyString
  end.

(** The loop of [accept] from [index] on, over the widgets not yet
    visited. It yields the entries appended from there on, or None when
    the validity check makes [accept] return, and the widgets as the
    calls of [get] leave them. *)
Fixpoint collect (fs : filesystem) (items : list string) (current : Z)
    (index : nat) (widgets : list RunConfigOptions.t)
  : M (option (list entry) * list RunConfigOptions.t) :=
  match widgets with
  | [] => ret (Some [], [])
  | widget :: rest =>
      let filename := itemText items index in
      valid <~ (if Z.of_nat index =? current
                then RunConfigOptions.is_valid fs widget else ret true);;
      if negb valid then ret (None, widget :: rest)
      else
        let '(options, widget') := RunConfigOptions.get widget in
        r <~ collect fs items current (S index) rest;;
        ret (option_map (cons (VStr filename, VDict options)) (fst r),
             widget' :: snd r)
  end.

Definition accept (fs : filesystem) (self : t) : M t :=
  r <~ collect fs (combo self) (currentIndex self) 0 (stack self);;
  match fst r with
  | None =>
      ret {| file_to_run := file_to_run self; combo := combo self;
             stack := snd r; currentIndex := currentIndex self;
             result := result self |}
  | Some configurations =>
      _set_run_configurations configurations;;;
      ret {| file_to_run := file_to_run self; combo := combo self;
             stack := snd r; currentIndex := currentIndex self;
             result := Accepted |}
  end.

(** The first loop of [setup]: the index of the first entry whose
    filename equals [fname], counting from [index]; None when the loop
    ends without [break]. *)
Fixpoint find_index (fname : string) (index : nat) (configurations : list entry)
  : option nat :=
  match configurations with
  | [] => None
  | (filename, options) :: rest =>
      if eq_str fname filename then Some index
      else find_index fname (S index) rest
  end.

(** The part of [setup] that decides the pages of the dialog and the
    page it shows: the history as read and the index of the entry of
    [fname], or, when the loop finds none, the history with a temporary
    entry made of a fresh configuration in front, and index 0. *)
Definition setup_configurations (fs : filesystem) (fname : string)
  : M (list entry * nat) :=
  configurations <~ _get_run_configurations fs;;
  match find_index fname 0 configurations with
  | Some index => ret (configurations, index)
  | None =>
      runconf <~ RunConfiguration.init;;
      ret ((VStr fname, VDict (RunConfiguration.get runconf)) :: configurations, 0%nat)
  end.

End RunConfigDialog.

(** ** Vocabulary of the statements *)

(** A history entry as it should be: a str filename and its options. *)
Definition stored_entry (e : string * value) : value := VSeq [VStr e.1; e.2].

Definition as_entry (e : string * value) : entry := (VStr e.1, e.2).

(** The entries whose file exists. *)
Definition existing (fs : filesystem) (l : list (string * value)) : list (string * value) :=
  filter (fun e => isfile fs e.1) l.

Definition stored_history (c : conf_store) : value :=
  store_get c "run" "configurations" (VSeq []).

Definition history_cap (c : conf_store) : value :=
  store_get c "run" "history" (VInt 20).

(** The body of the [try] of [_get_run_configurations], as a value. *)
Definition read_attempt (fs : filesystem) (w : world) : result (list entry) :=
  rbind (iter (stored_history (CONF w))) (fun items =>
  rbind (comprehension fs items) (fun kept =>
  slice_to kept (history_cap (CONF w)))).

(** The world after the stored history has been reset to the empty list. *)
Definition reset_history (w : world) : world :=
  {| CONF := store_set (CONF w) "run" "configurations" (VSeq []); shown := shown w |}.

(** The fields the round trip of [set] and [get] is about, in the order
    of the keys of [get]. *)
Definition round_trip_fields (rc : RunConfiguration.t) : list value :=
  [ RunConfiguration.args_enabled rc; RunConfiguration.args rc;
    RunConfiguration.current rc; RunConfiguration.systerm rc;
    RunConfiguration.interact rc; RunConfiguration.post_mortem rc;
    RunConfiguration.python_args_enabled rc; RunConfiguration.python_args rc;
    RunConfiguration.clear_namespace rc; RunConfiguration.console_namespace rc;
    RunConfiguration.file_dir rc; RunConfiguration.cw_dir rc;
    RunConfiguration.fixed_dir rc; RunConfiguration.dir rc ].

(** Where [set] takes a field from when [options] lacks its key. *)
Inductive fallback :=
| FromStore (option_name : string) (literal : value)
| Literal (literal : value).

Definition fallback_value (c : conf_store) (f : fallback) : value :=
  match f with
  | FromStore option_name literal => store_get c "run" option_name literal
  | Literal literal => literal
  end.

(** The fields [set] assigns: the key read from [options], the field
    written, and the fallback. *)
Definition assigned_fields : list (string * (RunConfiguration.t -> value) * fallback) :=
  [ ("args", RunConfiguration.args, Literal (VStr EmptyString));
    ("args/enabled", RunConfiguration.args_enabled, Literal (VBool false));
    ("current", RunConfiguration.current, FromStore CURRENT_INTERPRETER_OPTION (VBool true));
    ("systerm", RunConfiguration.systerm, FromStore SYSTERM_INTERPRETER_OPTION (VBool false));
    ("interact", RunConfiguration.interact, FromStore "interact" (VBool false));
    ("post_mortem", RunConfiguration.post_mortem, FromStore "post_mortem" (VBool false));
    ("python_args", RunConfiguration.python_args, Literal (VStr EmptyString));
    ("python_args/enabled", RunConfiguration.python_args_enabled, Literal (VBool false));
    ("clear_namespace", RunConfiguration.clear_namespace, FromStore "clear_namespace" (VBool false));
    ("console_namespace", RunConfiguration.console_namespace, FromStore "console_namespace" (VBool false));
    ("file_dir", RunConfiguration.file_dir, FromStore WDIR_USE_SCRIPT_DIR_OPTION (VBool true));
    ("cw_dir", RunConfiguration.cw_dir, FromStore WDIR_USE_CWD_DIR_OPTION (VBool false));
    ("fixed_dir", RunConfiguration.fixed_dir, FromStore WDIR_USE_FIXED_DIR_OPTION (VBool false));
    ("dir", RunConfiguration.dir, Literal (VStr EmptyString)) ].

(** The stored value can be read as a sequence of two-item entries: it is
    iterable and so is each of its items, into exactly two. *)
Definition iterable_as_pairs (v : value) : bool :=
  match iter v with
  | Ok items =>
      forallb (fun item => match unpack2 item with Ok _ => true | Raise _ => false end) items
  | Raise _ => false
  end.

(** The persisted history holds at most [n] entries. *)
Definition history_within (n : Z) (c : conf_store) : Prop :=
  exists l, c !! ("run", "configurations") = Some (VSeq l) /\ (length l <= Z.to_nat n)%nat.

(** ** Concrete worlds for the scenarios *)

(** A file system given by the lists of its regular files and of its
    directories; no file descriptor is a regular file. *)
Definition fs_with (files dirs : list string) : filesystem :=
  {| isfile := fun s => bool_decide (s ∈ files);
     isdir := fun s => bool_decide (s ∈ dirs);
     fd_isfile := fun _ => false |}.

(** A store holding the given history and cap, no message shown yet. *)
Definition world_with (history cap : value) : world :=
  {| CONF := <[("run", "history") := cap]> {[ ("run", "configurations") := history ]};
     shown := [] |}.

Definition fs_A_to_E : filesystem := fs_with ["A"; "B"; "C"; "D"; "E"] [].

Definition history_A_to_E : list (string * value) :=
  [("A", VDict []); ("B", VDict []); ("C", VDict []); ("D", VDict []); ("E", VDict [])].

(** gone.py is in the history but no longer on disk. *)
Definition fs_abc : filesystem := fs_with ["a.py"; "b.py"; "c.py"] ["/tmp"].

Definition history_with_gone : list (string * value) :=
  [("a.py", VDict []); ("gone.py", VDict []); ("b.py", VDict []); ("c.py", VDict [])].

(** The check of [is_valid]: another mode than the fixed directory is
    selected, or the directory entered exists. *)
Definition wdir_accepted (fs : filesystem) (widget : RunConfigOptions.t) : Prop :=
  RunConfigOptions.fixed_dir_radio widget = false \/
  isdir fs (RunConfigOptions.wd_edit widget) = true.

(** The message box [is_valid] shows for the directory [wdir]. *)
Definition invalid_wdir_message (wdir : string) : message :=
  {| title := "Run configuration"; text := RunConfigOptions.invalid_wdir_text wdir |}.

(** The world once one more message box has been shown. *)
Definition after_message (w : world) (m : message) : world :=
  {| CONF := CONF w; shown := shown w ++ [m] |}.

(** The world once [_set_run_configurations] has stored [configurations]. *)
Definition after_save (w : world) (configurations : list entry) : world :=
  {| CONF := store_set (CONF w) "run" "configurations" (VSeq (entry_value <$> configurations));
     shown := shown w |}.

(** A widget with the fixed-directory button as given and [wd] typed in
    the directory field. *)
Definition widget_with (fixed : bool) (wd : string) : RunConfigOptions.t :=
  {| RunConfigOptions.dir := VStr wd;
     RunConfigOptions.runconf := RunConfiguration.blank;
     RunConfigOptions.current_radio := true;
     RunConfigOptions.dedicated_radio := false;
     RunConfigOptions.systerm_radio := false;
     RunConfigOptions.clear_var_cb := false;
     RunConfigOptions.console_ns_cb := false;
     RunConfigOptions.post_mortem_cb := false;
     RunConfigOptions.clo_cb := false;
     RunConfigOptions.clo_edit := EmptyString;
     RunConfigOptions.file_dir_radio := negb fixed;
     RunConfigOptions.cwd_radio := false;
     RunConfigOptions.fixed_dir_radio := fixed;
     RunConfigOptions.wd_edit := wd;
     RunConfigOptions.interact_cb := false;
     RunConfigOptions.pclo_cb := false;
     RunConfigOptions.pclo_edit := EmptyString;
     RunConfigOptions.firstrun_cb := false |}.

Definition one_dialog (fname : string) (widget : RunConfigOptions.t) : RunConfigOneDialog.t :=
  {| RunConfigOneDialog.filename := VStr fname;
     RunConfigOneDialog.runconfigoptions := Some widget;
     RunConfigOneDialog.result := Rejected |}.

(** A multi-file dialog over the given files, each with a widget, showing
    the first. *)
Definition multi_dialog (pages : list (string * RunConfigOptions.t)) : RunConfigDialog.t :=
  {| RunConfigDialog.file_to_run := VNone;
     RunConfigDialog.combo := pages.*1;
     RunConfigDialog.stack := pages.*2;
     RunConfigDialog.currentIndex := 0;
     RunConfigDialog.result := Rejected |}.

(** foo.py is already third in the history. *)
Definition history_with_foo : list (string * value) :=
  [("a.py", VDict []); ("b.py", VDict []); ("foo.py", VDict [("args", VStr "old")])].

Definition fs_foo : filesystem := fs_with ["a.py"; "b.py"; "foo.py"] ["/tmp"].

(** The values [RunConfigOptions.get] writes for the fields of the
    round trip, read off the controls, in the order of [round_trip_fields]. *)
Definition control_values (widget : RunConfigOptions.t) : list value :=
  [ VBool (RunConfigOptions.clo_cb widget); VStr (RunConfigOptions.clo_edit widget);
    VBool (RunConfigOptions.current_radio widget);
    VBool (RunConfigOptions.systerm_radio widget);
    VBool (RunConfigOptions.interact_cb widget);
    VBool (RunConfigOptions.post_mortem_cb widget);
    VBool (RunConfigOptions.pclo_cb widget); VStr (RunConfigOptions.pclo_edit widget);
    VBool (RunConfigOptions.clear_var_cb widget);
    VBool (RunConfigOptions.console_ns_cb widget);
    VBool (RunConfigOptions.file_dir_radio widget);
    VBool (RunConfigOptions.cwd_radio widget);
    VBool (RunConfigOptions.fixed_dir_radio widget);
    VStr (RunConfigOptions.wd_edit widget) ].

(** The entries the multi-file [accept] builds for the pages from
    [index] on: the item text of the page and the mapping of its widget. *)
Fixpoint page_entries (items : list string) (index : nat)
    (widgets : list RunConfigOptions.t) : list entry :=
  match widgets with
  | [] => []
  | widget :: rest =>
      (VStr (RunConfigDialog.itemText items index), VDict (RunConfigOptions.get widget).1)
        :: page_entries items (S index) rest
  end.

(** The world with another default configuration in the store. *)
Definition with_defaultconfiguration (w : world) (v : value) : world :=
  {| CONF := store_set (CONF w) "run" "defaultconfiguration" v; shown := shown w |}.

(** * Properties *)

Section RunConfigurationFacts.

Import RunConfiguration.

(** C1. For every options mapping [o] and whatever objects receive the
    calls (fresh ones included): [set(o)] then [get()] gives a mapping [m]
    such that [set(m)] reproduces args/enabled, args, current, systerm,
    interact, post_mortem, python_args/enabled, python_args,
    clear_namespace, console_namespace, file_dir, cw_dir, fixed_dir and
    dir; the entry written for [wdir_enabled] is not read back, the
    receiver keeps the value it had. *)
Theorem set_get_set_round_trip (w : world) (o : dict) (rc0 rc1 : t) :
  exists rc rc',
    set (VDict o) rc0 w = (Ok rc, w) /\
    set (VDict (get rc)) rc1 w = (Ok rc', w) /\
    round_trip_fields rc' = round_trip_fields rc /\
    wdir_enabled rc' = wdir_enabled rc1.
Proof.
  exists (set_dict (CONF w) o rc0).
  exists (set_dict (CONF w) (get (set_dict (CONF w) o rc0)) rc1).
  repeat split.
Qed.

(** C3. [get_arguments] is the empty string when [args_enabled] is false,
    whatever [args] holds, and [args] when it is true; the same for
    [get_python_arguments]. A configuration set with the flag off still
    holds, and still writes out, the string it was given. *)
Theorem arguments_gated_by_flag (rc : t) (b : bool) (c : conf_store)
    (o : dict) (s : string) :
  (args_enabled rc = VBool b ->
     get_arguments rc = (if b then args rc else VStr EmptyString)) /\
  (python_args_enabled rc = VBool b ->
     get_python_arguments rc = (if b then python_args rc else VStr EmptyString)) /\
  (let off := set_dict c (("args/enabled", VBool false) :: ("args", VStr s) :: o) rc in
   get_arguments off = VStr EmptyString /\ args off = VStr s /\
   dict_get (get off) "args" VNone = VStr s) /\
  (let off := set_dict c (("python_args/enabled", VBool false)
                            :: ("python_args", VStr s) :: o) rc in
   get_python_arguments off = VStr EmptyString /\ python_args off = VStr s /\
   dict_get (get off) "python_args" VNone = VStr s).
Proof.
  unfold get_arguments, get_python_arguments.
  split; [intros ->; reflexivity|].
  split; [intros ->; reflexivity|].
  split; repeat split.
Qed.

Lemma arguments_gated_by_flag_witness :
  get_arguments (set_dict ∅ [("args", VStr "-v"); ("args/enabled", VBool true)] blank)
    = VStr "-v" /\
  get_python_arguments (set_dict ∅ [("python_args", VStr "-u")] blank) = VStr EmptyString.
Proof.
  split.
  - apply (proj1 (arguments_gated_by_flag
             (set_dict ∅ [("args", VStr "-v"); ("args/enabled", VBool true)] blank)
             true ∅ [] EmptyString)).
    reflexivity.
  - apply (proj1 (proj2 (arguments_gated_by_flag
             (set_dict ∅ [("python_args", VStr "-u")] blank) false ∅ [] EmptyString))).
    reflexivity.
Defined.

(** C2, as the code has it. For every options mapping, [set] assigns each
    of fourteen fields from [options] when its key is present. Otherwise
    current, systerm, interact, post_mortem, clear_namespace,
    console_namespace, file_dir, cw_dir and fixed_dir come from the
    store's option of section run (or its literal when the store has
    none), while args, python_args and dir fall back to the empty string
    and args/enabled and python_args/enabled to false. [wdir] and
    [wdir_enabled] are not assigned at all. With the store holding
    default/interpreter/current = true and nothing for systerm,
    [set({})] yields current = true and systerm = false. *)
Theorem set_assigns_each_field (c : conf_store) (o : dict) (self : t) :
  Forall (fun row : string * (t -> value) * fallback =>
            row.1.2 (set_dict c o self)
            = dict_get o row.1.1 (fallback_value c row.2))
         assigned_fields /\
  wdir (set_dict c o self) = wdir self /\
  wdir_enabled (set_dict c o self) = wdir_enabled self /\
  (c !! ("run", CURRENT_INTERPRETER_OPTION) = Some (VBool true) ->
   c !! ("run", SYSTERM_INTERPRETER_OPTION) = None ->
   current (set_dict c [] self) = VBool true /\
   systerm (set_dict c [] self) = VBool false).
Proof.
  split; [repeat constructor|].
  split; [reflexivity|].
  split; [reflexivity|].
  intros Hcur Hsys. unfold set_dict, store_get; simpl.
  rewrite Hcur, Hsys. split; reflexivity.
Qed.

Lemma set_assigns_each_field_witness :
  let rc := set_dict {[ ("run", CURRENT_INTERPRETER_OPTION) := VBool true ]} [] blank in
  current rc = VBool true /\ systerm rc = VBool false.
Proof.
  apply (proj2 (proj2 (proj2 (set_assigns_each_field
           {[ ("run", CURRENT_INTERPRETER_OPTION) := VBool true ]} [] blank))));
    reflexivity.
Defined.

(** C2, as stated, fails: [set] never assigns [wdir_enabled], whether or
    not [options] holds a key for it, so a fresh object keeps None there
    and not a false literal; and args/enabled has no store default, a
    value stored under that name is not consulted. *)
Lemma set_does_not_assign_wdir_enabled :
  wdir_enabled (set_dict ∅ [] blank) = VNone /\
  wdir_enabled (set_dict ∅ [] blank) <> VBool false /\
  wdir_enabled (set_dict ∅ [("workdir/enabled", VBool true);
                            ("wdir_enabled", VBool true)] blank) = VNone /\
  args_enabled (set_dict {[ ("run", "args/enabled") := VBool true ]} [] blank)
    = VBool false.
Proof. repeat split. discriminate. Qed.

End RunConfigurationFacts.

(** ** Reading the history *)

Section HistoryFacts.

Variable fs : filesystem.

Lemma unpack2_stored_entry (e : string * value) :
  unpack2 (stored_entry e) = Ok (as_entry e).
Proof. reflexivity. Qed.

(** On a history of str-named pairs the comprehension is the filter. *)
Lemma comprehension_stored (l : list (string * value)) :
  comprehension fs (stored_entry <$> l) = Ok (as_entry <$> existing fs l).
Proof.
  unfold existing.
  induction l as [|e l IH]; [reflexivity|].
  rewrite fmap_cons. cbn [comprehension].
  rewrite unpack2_stored_entry. cbn [rbind as_entry osp_isfile].
  rewrite IH. cbn [rbind].
  destruct (isfile fs e.1) eqn:He.
  - rewrite filter_cons_True by (rewrite He; exact I). reflexivity.
  - rewrite filter_cons_False by (rewrite He; exact id). reflexivity.
Qed.

(** The comprehension goes through a prefix before it reaches an item. *)
Lemma comprehension_app_raise (pre : list value) (kept : list entry)
    (bad : value) (rest : list value) (e : exn) :
  comprehension fs pre = Ok kept ->
  unpack2 bad = Raise e ->
  comprehension fs (pre ++ bad :: rest)%list = Raise e.
Proof.
  revert kept. induction pre as [|item pre IH]; intros kept Hpre Hbad.
  - cbn [app comprehension]. rewrite Hbad. reflexivity.
  - cbn [app comprehension] in *.
    destruct (unpack2 item) as [[filename options]|]; [|discriminate].
    cbn [rbind] in *.
    destruct (osp_isfile fs filename); [|discriminate].
    cbn [rbind] in *.
    destruct (comprehension fs pre) as [kept'|] eqn:Hk; [|discriminate].
    rewrite (IH kept' eq_refl Hbad). reflexivity.
Qed.

(** Every entry the comprehension keeps passed the file test. *)
Lemma comprehension_kept (items : list value) (kept : list entry) :
  comprehension fs items = Ok kept ->
  forall filename options, (filename, options) ∈ kept -> osp_isfile fs filename = Ok true.
Proof.
  revert kept. induction items as [|item items IH]; intros kept H filename options Hin.
  - injection H as <-. inversion Hin.
  - cbn [comprehension] in H.
    destruct (unpack2 item) as [[f o]|]; [|discriminate].
    cbn [rbind] in H.
    destruct (osp_isfile fs f) as [keep|] eqn:Hf; [|discriminate].
    cbn [rbind] in H.
    destruct (comprehension fs items) as [kept'|]; [|discriminate].
    cbn [rbind] in H. injection H as <-.
    destruct keep.
    + apply elem_of_cons in Hin as [Heq|Hin].
      * injection Heq as -> ->. exact Hf.
      * exact (IH kept' eq_refl _ _ Hin).
    + exact (IH kept' eq_refl _ _ Hin).
Qed.

Lemma slice_to_int_nonneg {A} (l : list A) (n : Z) :
  0 <= n -> slice_to_int l n = take (Z.to_nat n) l.
Proof.
  intros Hn. unfold slice_to_int.
  destruct (0 <=? n) eqn:E; [reflexivity|]. apply Z.leb_gt in E. lia.
Qed.

(** A negative stop counts from the end of the list. *)
Lemma slice_to_int_negative {A} (l : list A) (n : Z) :
  n < 0 -> slice_to_int l n = take (length l - Z.to_nat (- n)) l.
Proof.
  intros Hn. unfold slice_to_int.
  destruct (0 <=? n) eqn:E; [|reflexivity]. apply Z.leb_le in E. lia.
Qed.

Lemma slice_to_subset {A} (l kept : list A) (stop : value) :
  slice_to l stop = Ok kept -> kept ⊆ l.
Proof.
  assert (Hint : forall z, slice_to_int l z ⊆ l).
  { intros z. unfold slice_to_int. destruct (0 <=? z); apply subseteq_take. }
  destruct stop; cbn; intros H; try discriminate; injection H as <-; auto.
Qed.

(** [_get_run_configurations] answers what the attempt gives, except
    that a ValueError becomes the reset of the stored history. *)
Lemma get_run_configurations_unfold (w : world) :
  _get_run_configurations fs w =
    match read_attempt fs w with
    | Raise ValueError => (Ok [], reset_history w)
    | other => (other, w)
    end.
Proof.
  unfold _get_run_configurations, read_attempt, try_except_ValueError, bind,
    CONF_get, lift, stored_history, history_cap.
  destruct (iter _) as [items|e]; cbn [rbind].
  - destruct (comprehension fs items) as [kept|e]; cbn [rbind].
    + destruct (slice_to kept _) as [l|e]; [reflexivity|].
      destruct e; reflexivity.
    + destruct e; reflexivity.
  - destruct e; reflexivity.
Qed.

(** A history of str-named pairs under an int cap is read without
    failure and without touching the world. *)
Lemma get_run_configurations_well_formed (w : world) (l : list (string * value)) (n : Z) :
  stored_history (CONF w) = VSeq (stored_entry <$> l) ->
  history_cap (CONF w) = VInt n ->
  _get_run_configurations fs w = (Ok (slice_to_int (as_entry <$> existing fs l) n), w).
Proof.
  intros Hs Hc. rewrite get_run_configurations_unfold. unfold read_attempt.
  rewrite Hs, Hc. cbn [iter rbind]. rewrite comprehension_stored. reflexivity.
Qed.

End HistoryFacts.

Section ReadingClaims.

Variable fs : filesystem.

(** C5. Reading a history of (filename, options) pairs under a cap [n]
    keeps the entries whose filename is a regular file, in their order,
    and then truncates that list to its first [n] entries; the store is
    left as it was. *)
Theorem read_filters_then_truncates (w : world) (l : list (string * value)) (n : Z) :
  stored_history (CONF w) = VSeq (stored_entry <$> l) ->
  history_cap (CONF w) = VInt n ->
  0 <= n ->
  _get_run_configurations fs w
    = (Ok (take (Z.to_nat n) (as_entry <$> existing fs l)), w).
Proof.
  intros Hs Hc Hn.
  rewrite (get_run_configurations_well_formed fs w l n Hs Hc).
  rewrite slice_to_int_nonneg by exact Hn. reflexivity.
Qed.

(** C6, as the code has it. When reading the stored value raises
    ValueError, that is when the value is iterable and, its earlier items
    having been read without failure, one of its items is iterable but
    does not yield exactly two values, the read catches the failure,
    persists the empty list as the history and returns the empty list. *)
Theorem read_resets_on_wrong_arity (w : world) (pre rest : list value)
    (kept : list entry) (bad : value) (items : list value) :
  iter (stored_history (CONF w)) = Ok (pre ++ bad :: rest)%list ->
  comprehension fs pre = Ok kept ->
  iter bad = Ok items ->
  length items <> 2%nat ->
  _get_run_configurations fs w = (Ok [], reset_history w) /\
  CONF (reset_history w) !! ("run", "configurations") = Some (VSeq []).
Proof.
  intros Hs Hpre Hbad Hlen.
  assert (Hun : unpack2 bad = Raise ValueError).
  { unfold unpack2. rewrite Hbad. cbn [rbind].
    destruct items as [|a [|b [|c items]]]; try reflexivity.
    exfalso. apply Hlen. reflexivity. }
  split.
  - rewrite get_run_configurations_unfold. unfold read_attempt.
    rewrite Hs. cbn [rbind].
    rewrite (comprehension_app_raise fs pre kept bad rest ValueError Hpre Hun).
    reflexivity.
  - unfold reset_history, store_set. cbn [CONF]. apply lookup_insert_eq.
Qed.

(** C7. A read excludes from its result every entry whose filename is
    not a regular file; on a history of (filename, options) pairs it
    leaves the world, the stored history included, as it was; and the
    world changes in a read only when the attempt raised ValueError, the
    change being the reset of the stored history. *)
Theorem read_changes_store_only_by_reset (w w' : world) (r : result (list entry)) :
  _get_run_configurations fs w = (r, w') ->
  (forall kept filename options,
     r = Ok kept -> (filename, options) ∈ kept -> osp_isfile fs filename = Ok true) /\
  (forall l, stored_history (CONF w) = VSeq (stored_entry <$> l) -> w' = w) /\
  (w' = w \/ (read_attempt fs w = Raise ValueError /\ w' = reset_history w)).
Proof.
  rewrite get_run_configurations_unfold. intros H.
  split; [|split].
  - intros kept filename options Hr Hin. subst r.
    unfold read_attempt in H.
    destruct (iter _) as [items|e]; cbn [rbind] in H.
    + destruct (comprehension fs items) as [kept'|e] eqn:Hc; cbn [rbind] in H.
      * destruct (slice_to kept' _) as [l|e] eqn:Hsl.
        -- injection H as <- _.
           apply (comprehension_kept fs items kept' Hc filename options).
           exact (slice_to_subset _ _ _ Hsl _ Hin).
        -- destruct e; try congruence; injection H as <- _; inversion Hin.
      * destruct e; try congruence; injection H as <- _; inversion Hin.
    + destruct e; try congruence; injection H as <- _; inversion Hin.
  - intros l Hs. unfold read_attempt in H. rewrite Hs in H.
    cbn [iter rbind] in H. rewrite comprehension_stored in H. cbn [rbind] in H.
    destruct (history_cap (CONF w)); cbn [slice_to] in H; congruence.
  - destruct (read_attempt fs w) as [l|e]; [left; congruence|].
    destruct e; try (left; congruence).
    right. split; [reflexivity|congruence].
Qed.

Lemma scan_configurations_absent (fname : string) (l : list (string * value)) (w : world) :
  fname ∉ l.*1 ->
  scan_configurations fname (as_entry <$> l) w = (Ok None, w).
Proof.
  induction l as [|[name o] l IH]; intros Hnot; [reflexivity|].
  rewrite fmap_cons in *. cbn [scan_configurations as_entry fst snd eq_str].
  apply not_elem_of_cons in Hnot as [Hne Hnot]. cbn [fst] in Hne.
  destruct (String.eqb fname name) eqn:E.
  - apply String.eqb_eq in E. contradiction.
  - exact (IH Hnot).
Qed.

(** C10. [get_run_configuration] scans what the read returns, the
    existing entries cut to the cap, and not the stored value: it returns
    None, leaving the world as it was, whenever the file does not exist
    or its entry is not among the first [n] existing ones, whether or not
    the stored history holds an entry for it. *)
Theorem get_run_configuration_scans_view (w : world) (l : list (string * value))
    (n : Z) (fname : string) :
  stored_history (CONF w) = VSeq (stored_entry <$> l) ->
  history_cap (CONF w) = VInt n ->
  0 <= n ->
  get_run_configuration fs fname w
    = scan_configurations fname (as_entry <$> take (Z.to_nat n) (existing fs l)) w /\
  (isfile fs fname = false \/ fname ∉ (take (Z.to_nat n) (existing fs l)).*1 ->
   get_run_configuration fs fname w = (Ok None, w)).
Proof.
  intros Hs Hc Hn.
  assert (Hget : get_run_configuration fs fname w
    = scan_configurations fname (as_entry <$> take (Z.to_nat n) (existing fs l)) w).
  { unfold get_run_configuration, bind.
    rewrite (get_run_configurations_well_formed fs w l n Hs Hc).
    rewrite slice_to_int_nonneg by exact Hn. rewrite fmap_take. reflexivity. }
  split; [exact Hget|].
  intros H. rewrite Hget. apply scan_configurations_absent.
  destruct H as [Hfile|Hnot]; [|exact Hnot].
  intros Hin. apply list_elem_of_fmap in Hin as [[name o] [-> Hin]].
  apply subseteq_take in Hin. unfold existing in Hin.
  apply list_elem_of_filter in Hin as [Hex _]. cbn [fst] in *.
  rewrite Hfile in Hex. exact Hex.
Qed.

End ReadingClaims.

(** The scenario of C5: cap 3, five entries A to E whose files all exist;
    the read returns A, B, C in that order. *)
Lemma read_filters_then_truncates_witness :
  let w := world_with (VSeq (stored_entry <$> history_A_to_E)) (VInt 3) in
  _get_run_configurations fs_A_to_E w
    = (Ok [(VStr "A", VDict []); (VStr "B", VDict []); (VStr "C", VDict [])], w).
Proof.
  intros w.
  apply (read_filters_then_truncates fs_A_to_E w history_A_to_E 3);
    [reflexivity | reflexivity | lia].
Defined.

(** C6, as stated, fails: a stored history holding an entry that is not
    iterable (here an int), or a stored value that is itself not iterable
    (here None), makes the read raise TypeError, which the handler does
    not catch; the error reaches the caller and the store is not reset. *)
Lemma read_propagates_type_error :
  let w1 := world_with (VSeq [VInt 7]) (VInt 20) in
  let w2 := world_with VNone (VInt 20) in
  iterable_as_pairs (VSeq [VInt 7]) = false /\
  _get_run_configurations fs_abc w1 = (Raise TypeError, w1) /\
  _get_run_configurations fs_abc w1 <> (Ok [], reset_history w1) /\
  iterable_as_pairs VNone = false /\
  _get_run_configurations fs_abc w2 = (Raise TypeError, w2).
Proof.
  intros w1 w2.
  assert (H1 : _get_run_configurations fs_abc w1 = (Raise TypeError, w1))
    by (rewrite get_run_configurations_unfold; reflexivity).
  split; [reflexivity|].
  split; [exact H1|].
  split; [rewrite H1; discriminate|].
  split; [reflexivity|].
  rewrite get_run_configurations_unfold. reflexivity.
Qed.

(** A history whose second entry is a triple is reset by the read. *)
Lemma read_resets_on_wrong_arity_witness :
  let w := world_with (VSeq [stored_entry ("a.py", VDict []);
                             VSeq [VStr "b.py"; VDict []; VInt 1]]) (VInt 20) in
  _get_run_configurations fs_abc w = (Ok [], reset_history w) /\
  CONF (reset_history w) !! ("run", "configurations") = Some (VSeq []).
Proof.
  intros w.
  apply (read_resets_on_wrong_arity fs_abc w
           [stored_entry ("a.py", VDict [])] []
           [(VStr "a.py", VDict [])]
           (VSeq [VStr "b.py"; VDict []; VInt 1])
           [VStr "b.py"; VDict []; VInt 1]);
    [reflexivity | reflexivity | reflexivity | simpl; lia].
Defined.

(** A read that drops the entry of the missing gone.py leaves the world,
    and so the stored entry of gone.py, as it was. *)
Lemma read_changes_store_only_by_reset_witness :
  let w := world_with (VSeq (stored_entry <$> history_with_gone)) (VInt 20) in
  _get_run_configurations fs_abc w
    = (Ok [(VStr "a.py", VDict []); (VStr "b.py", VDict []); (VStr "c.py", VDict [])], w) /\
  snd (_get_run_configurations fs_abc w) = w /\
  stored_history (CONF w) = VSeq (stored_entry <$> history_with_gone).
Proof.
  intros w.
  assert (Hrun : _get_run_configurations fs_abc w
    = (Ok [(VStr "a.py", VDict []); (VStr "b.py", VDict []); (VStr "c.py", VDict [])], w))
    by (rewrite get_run_configurations_unfold; reflexivity).
  split; [exact Hrun|]. split; [|reflexivity].
  rewrite Hrun.
  exact (proj1 (proj2 (read_changes_store_only_by_reset fs_abc w _ _ Hrun))
           history_with_gone eq_refl).
Defined.

(** With a cap of 2, neither gone.py (stored, but missing on disk) nor
    c.py (stored and on disk, but third among the existing entries) has
    a run configuration. *)
Lemma get_run_configuration_scans_view_witness :
  let w := world_with (VSeq (stored_entry <$> history_with_gone)) (VInt 2) in
  "gone.py" ∈ history_with_gone.*1 /\
  get_run_configuration fs_abc "gone.py" w = (Ok None, w) /\
  "c.py" ∈ history_with_gone.*1 /\
  get_run_configuration fs_abc "c.py" w = (Ok None, w).
Proof.
  intros w.
  split; [apply (bool_decide_unpack _); vm_compute; exact I|].
  split.
  - apply (proj2 (get_run_configuration_scans_view fs_abc w history_with_gone 2
                    "gone.py" eq_refl eq_refl ltac:(lia))).
    left. reflexivity.
  - split; [apply (bool_decide_unpack _); vm_compute; exact I|].
    apply (proj2 (get_run_configuration_scans_view fs_abc w history_with_gone 2
                    "c.py" eq_refl eq_refl ltac:(lia))).
    right. apply (bool_decide_unpack _). vm_compute. exact I.
Defined.

(** ** Saving from the dialogs *)

Section SavingFacts.

Variable fs : filesystem.

Lemma is_valid_accepts (widget : RunConfigOptions.t) (w : world) :
  wdir_accepted fs widget ->
  RunConfigOptions.is_valid fs widget w = (Ok true, w).
Proof.
  unfold RunConfigOptions.is_valid. intros [H|H]; rewrite H; [reflexivity|].
  rewrite orb_true_r. reflexivity.
Qed.

Lemma is_valid_refuses (widget : RunConfigOptions.t) (w : world) :
  RunConfigOptions.fixed_dir_radio widget = true ->
  isdir fs (RunConfigOptions.wd_edit widget) = false ->
  RunConfigOptions.is_valid fs widget w
    = (Ok false, after_message w (invalid_wdir_message (RunConfigOptions.wd_edit widget))).
Proof.
  unfold RunConfigOptions.is_valid. intros -> ->. reflexivity.
Qed.

(** [is_valid] answers, and at most shows a message. *)
Lemma is_valid_world (widget : RunConfigOptions.t) (w : world) :
  exists b msgs,
    RunConfigOptions.is_valid fs widget w
      = (Ok b, {| CONF := CONF w; shown := shown w ++ msgs |}).
Proof.
  unfold RunConfigOptions.is_valid.
  destruct (negb _ || _).
  - exists true, []. rewrite app_nil_r. destruct w; reflexivity.
  - eexists false, [_]. reflexivity.
Qed.

(** A read leaves the world as it was or resets the stored history. *)
Lemma get_run_configurations_world (w w1 : world) (r : result (list entry)) :
  _get_run_configurations fs w = (r, w1) ->
  w1 = w \/ w1 = reset_history w.
Proof.
  rewrite get_run_configurations_unfold.
  destruct (read_attempt fs w) as [l|e]; [left; congruence|].
  destruct e; intros H; injection H as _ <-; auto.
Qed.

Lemma get_run_configurations_keeps_cap (w w1 : world) (r : result (list entry)) :
  _get_run_configurations fs w = (r, w1) ->
  history_cap (CONF w1) = history_cap (CONF w).
Proof.
  intros H. destruct (get_run_configurations_world w w1 r H) as [->| ->];
    [reflexivity|].
  unfold history_cap, store_get, reset_history, store_set. cbn [CONF].
  rewrite lookup_insert_ne by discriminate. reflexivity.
Qed.

Lemma set_run_configurations_int (configurations : list entry) (w : world) (n : Z) :
  history_cap (CONF w) = VInt n ->
  _set_run_configurations configurations w
    = (Ok tt, after_save w (slice_to_int configurations n)).
Proof.
  intros Hc. unfold _set_run_configurations, bind, CONF_get, lift, CONF_set.
  fold (history_cap (CONF w)). rewrite Hc. reflexivity.
Qed.

Lemma after_save_within (w : world) (configurations : list entry) (n : Z) :
  0 <= n ->
  history_within n (CONF (after_save w (slice_to_int configurations n))).
Proof.
  intros Hn. exists (entry_value <$> slice_to_int configurations n). split.
  - unfold after_save, store_set. cbn [CONF]. apply lookup_insert_eq.
  - rewrite length_fmap, slice_to_int_nonneg by exact Hn.
    rewrite length_take. lia.
Qed.

(** The single-file [accept] once the check has passed and the read has
    answered. *)
Lemma accept_one_saves (self : RunConfigOneDialog.t) (widget : RunConfigOptions.t)
    (w w1 : world) (h : list entry) (n : Z) :
  RunConfigOneDialog.runconfigoptions self = Some widget ->
  wdir_accepted fs widget ->
  _get_run_configurations fs w = (Ok h, w1) ->
  history_cap (CONF w) = VInt n ->
  RunConfigOneDialog.accept fs self w
    = (Ok {| RunConfigOneDialog.filename := RunConfigOneDialog.filename self;
             RunConfigOneDialog.runconfigoptions := Some (RunConfigOptions.get widget).2;
             RunConfigOneDialog.result := Accepted |},
       after_save w1
         (slice_to_int ((RunConfigOneDialog.filename self,
                         VDict (RunConfigOptions.get widget).1) :: h) n)).
Proof.
  intros Hw Hv Hr Hc. unfold RunConfigOneDialog.accept. rewrite Hw.
  unfold bind at 1. rewrite (is_valid_accepts widget w Hv). cbn [negb].
  unfold bind at 1. rewrite Hr.
  cbn [RunConfigOptions.get]. unfold bind at 1.
  rewrite (set_run_configurations_int _ w1 n)
    by (rewrite (get_run_configurations_keeps_cap w w1 _ Hr); exact Hc).
  reflexivity.
Qed.

Lemma accept_one_refused (self : RunConfigOneDialog.t) (widget : RunConfigOptions.t)
    (w : world) :
  RunConfigOneDialog.runconfigoptions self = Some widget ->
  RunConfigOptions.fixed_dir_radio widget = true ->
  isdir fs (RunConfigOptions.wd_edit widget) = false ->
  RunConfigOneDialog.accept fs self w
    = (Ok self, after_message w (invalid_wdir_message (RunConfigOptions.wd_edit widget))).
Proof.
  intros Hw Hf Hd. unfold RunConfigOneDialog.accept. rewrite Hw.
  unfold bind at 1. rewrite (is_valid_refuses widget w Hf Hd). reflexivity.
Qed.

(** The loop of the multi-file [accept] never raises and leaves the
    store alone. *)
Lemma collect_world (items : list string) (current : Z)
    (widgets : list RunConfigOptions.t) :
  forall (index : nat) (w : world),
  exists r msgs,
    RunConfigDialog.collect fs items current index widgets w
      = (Ok r, {| CONF := CONF w; shown := shown w ++ msgs |}).
Proof.
  induction widgets as [|widget rest IH]; intros index w.
  - exists (Some [], []), []. rewrite app_nil_r. destruct w; reflexivity.
  - cbn [RunConfigDialog.collect].
    assert (Hvalid : exists b msgs,
      (if Z.of_nat index =? current
       then RunConfigOptions.is_valid fs widget else ret true) w
        = (Ok b, {| CONF := CONF w; shown := shown w ++ msgs |})).
    { destruct (Z.of_nat index =? current); [apply is_valid_world|].
      exists true, []. rewrite app_nil_r. destruct w; reflexivity. }
    destruct Hvalid as (b & msgs & Hvalid).
    unfold bind at 1. rewrite Hvalid. destruct b; cbn [negb].
    + cbn [RunConfigOptions.get]. unfold bind at 1.
      destruct (IH (S index) {| CONF := CONF w; shown := shown w ++ msgs |})
        as (r & msgs' & ->).
      cbn [CONF shown]. eexists _, (msgs ++ msgs')%list.
      unfold ret. rewrite app_assoc. reflexivity.
    + eexists _, msgs. reflexivity.
Qed.

End SavingFacts.

Section SavingClaims.

Variable fs : filesystem.

(** C4. Under a cap [n], whenever a dialog not yet accepted is accepted
    by its [accept], the single-file one (which prepends one entry) or the
    multi-file one (which replaces all entries), the history persisted
    under the configurations key is a list of at most [n] entries. *)
Theorem saved_history_within_cap (w : world) (n : Z) :
  history_cap (CONF w) = VInt n ->
  0 <= n ->
  (forall (self self' : RunConfigOneDialog.t) (w' : world),
     RunConfigOneDialog.result self = Rejected ->
     RunConfigOneDialog.accept fs self w = (Ok self', w') ->
     RunConfigOneDialog.result self' = Accepted ->
     history_within n (CONF w')) /\
  (forall (self self' : RunConfigDialog.t) (w' : world),
     RunConfigDialog.result self = Rejected ->
     RunConfigDialog.accept fs self w = (Ok self', w') ->
     RunConfigDialog.result self' = Accepted ->
     history_within n (CONF w')).
Proof.
  intros Hc Hn. split.
  - intros self self' w' Hfresh Hrun Hacc.
    unfold RunConfigOneDialog.accept in Hrun.
    destruct (RunConfigOneDialog.runconfigoptions self) as [widget|];
      [|discriminate].
    unfold bind at 1 in Hrun.
    destruct (is_valid_world fs widget w) as (b & msgs & Hvalid).
    rewrite Hvalid in Hrun. destruct b; cbn [negb] in Hrun.
    + unfold bind at 1 in Hrun.
      destruct (_get_run_configurations fs _) as [[h|e] w1] eqn:Hread;
        [|discriminate].
      cbn [RunConfigOptions.get] in Hrun. unfold bind at 1 in Hrun.
      rewrite (set_run_configurations_int _ w1 n) in Hrun
        by (rewrite (get_run_configurations_keeps_cap fs _ w1 _ Hread); exact Hc).
      injection Hrun as _ <-. apply after_save_within. exact Hn.
    + injection Hrun as <- _. congruence.
  - intros self self' w' Hfresh Hrun Hacc.
    unfold RunConfigDialog.accept in Hrun. unfold bind at 1 in Hrun.
    destruct (collect_world fs (RunConfigDialog.combo self)
                (RunConfigDialog.currentIndex self) (RunConfigDialog.stack self) 0%nat w)
      as ([configurations stack'] & msgs & Hloop).
    rewrite Hloop in Hrun. cbn [fst snd] in Hrun.
    destruct configurations as [configurations|].
    + unfold bind at 1 in Hrun.
      rewrite (set_run_configurations_int _ _ n) in Hrun by exact Hc.
      injection Hrun as _ <-. apply after_save_within. exact Hn.
    + injection Hrun as <- _. cbn in Hacc. congruence.
Qed.

(** C8. The single-file save stores the new (filename, options) entry in
    front of the history as read, cut to the cap, and removes nothing: an
    entry of the same filename at position [i] of that history is still
    there, at position [i + 1], when the cap leaves room for it. *)
Theorem single_file_save_prepends_without_dedup
    (self : RunConfigOneDialog.t) (widget : RunConfigOptions.t)
    (w w1 : world) (h : list entry) (n : Z) (i : nat) (old : value) :
  RunConfigOneDialog.runconfigoptions self = Some widget ->
  wdir_accepted fs widget ->
  _get_run_configurations fs w = (Ok h, w1) ->
  history_cap (CONF w) = VInt n ->
  0 <= n ->
  let new := (RunConfigOneDialog.filename self, VDict (RunConfigOptions.get widget).1) in
  let saved := take (Z.to_nat n) (new :: h) in
  (exists self', RunConfigOneDialog.accept fs self w = (Ok self', after_save w1 saved)) /\
  stored_history (CONF (after_save w1 saved)) = VSeq (entry_value <$> saved) /\
  (h !! i = Some (RunConfigOneDialog.filename self, old) ->
   (S i < Z.to_nat n)%nat ->
   saved !! 0%nat = Some new /\
   saved !! S i = Some (RunConfigOneDialog.filename self, old)).
Proof.
  intros Hw Hv Hr Hc Hn new saved. split; [|split].
  - eexists. rewrite (accept_one_saves fs self widget w w1 h n Hw Hv Hr Hc).
    rewrite slice_to_int_nonneg by exact Hn. reflexivity.
  - unfold stored_history, store_get, after_save, store_set. cbn [CONF].
    rewrite lookup_insert_eq. reflexivity.
  - intros Hold Hlt. unfold saved. split.
    + rewrite lookup_take_lt by lia. reflexivity.
    + rewrite lookup_take_lt by exact Hlt. exact Hold.
Qed.

(** C9. With the fixed-directory mode selected and a directory that does
    not exist, [is_valid] shows a message naming the directory and
    returns false, and the single-file [accept] returns there: the store
    and the dialog are as before. Otherwise [is_valid] returns true
    without a message and [accept] goes on to save: once the read has
    answered, the new entry is stored in front and the dialog is
    accepted. *)
Theorem invalid_fixed_directory_rejects_save
    (self : RunConfigOneDialog.t) (widget : RunConfigOptions.t) (w : world) :
  RunConfigOneDialog.runconfigoptions self = Some widget ->
  (RunConfigOptions.fixed_dir_radio widget = true ->
   isdir fs (RunConfigOptions.wd_edit widget) = false ->
   let w' := after_message w (invalid_wdir_message (RunConfigOptions.wd_edit widget)) in
   RunConfigOptions.is_valid fs widget w = (Ok false, w') /\
   RunConfigOneDialog.accept fs self w = (Ok self, w') /\
   CONF w' = CONF w) /\
  (wdir_accepted fs widget ->
   RunConfigOptions.is_valid fs widget w = (Ok true, w) /\
   forall (h : list entry) (w1 : world) (n : Z),
     _get_run_configurations fs w = (Ok h, w1) ->
     history_cap (CONF w) = VInt n ->
     exists self',
       RunConfigOneDialog.accept fs self w
         = (Ok self',
            after_save w1
              (slice_to_int ((RunConfigOneDialog.filename self,
                              VDict (RunConfigOptions.get widget).1) :: h) n)) /\
       RunConfigOneDialog.result self' = Accepted).
Proof.
  intros Hw. split.
  - intros Hf Hd w'. split; [exact (is_valid_refuses fs widget w Hf Hd)|].
    split; [exact (accept_one_refused fs self widget w Hw Hf Hd)|reflexivity].
  - intros Hv. split; [exact (is_valid_accepts fs widget w Hv)|].
    intros h w1 n Hr Hc. eexists. split.
    + exact (accept_one_saves fs self widget w w1 h n Hw Hv Hr Hc).
    + reflexivity.
Qed.

End SavingClaims.

(** Under a cap of 2 and a history of three entries, both dialogs leave a
    persisted history of at most two entries. *)
Lemma saved_history_within_cap_witness :
  let w := world_with (VSeq (stored_entry <$> history_with_foo)) (VInt 2) in
  let one := one_dialog "foo.py" (widget_with false EmptyString) in
  let multi := multi_dialog [("a.py", widget_with false EmptyString); ("b.py", widget_with false EmptyString);
                             ("foo.py", widget_with false EmptyString)] in
  history_within 2 (CONF (snd (RunConfigOneDialog.accept fs_foo one w))) /\
  history_within 2 (CONF (snd (RunConfigDialog.accept fs_foo multi w))).
Proof.
  intros w one multi. split.
  - apply (proj1 (saved_history_within_cap fs_foo w 2 eq_refl ltac:(lia)) one
             (match fst (RunConfigOneDialog.accept fs_foo one w) with
              | Ok d => d
              | Raise _ => one
              end)
             (snd (RunConfigOneDialog.accept fs_foo one w)) eq_refl);
      vm_compute; reflexivity.
  - apply (proj2 (saved_history_within_cap fs_foo w 2 eq_refl ltac:(lia)) multi
             (match fst (RunConfigDialog.accept fs_foo multi w) with
              | Ok d => d
              | Raise _ => multi
              end)
             (snd (RunConfigDialog.accept fs_foo multi w)) eq_refl);
      vm_compute; reflexivity.
Defined.

(** The scenario of C8: foo.py is at position 2 of the history; after the
    single-file save its new entry is first and its old entry is still
    there, now at position 3. *)
Lemma single_file_save_prepends_without_dedup_witness :
  let w := world_with (VSeq (stored_entry <$> history_with_foo)) (VInt 20) in
  let one := one_dialog "foo.py" (widget_with false EmptyString) in
  let new := (VStr "foo.py", VDict (RunConfigOptions.get (widget_with false EmptyString)).1) in
  let saved := new :: (as_entry <$> history_with_foo) in
  (exists self', RunConfigOneDialog.accept fs_foo one w = (Ok self', after_save w saved)) /\
  saved !! 0%nat = Some new /\
  saved !! 3%nat = Some (VStr "foo.py", VDict [("args", VStr "old")]).
Proof.
  intros w one new saved.
  assert (Hread : _get_run_configurations fs_foo w = (Ok (as_entry <$> history_with_foo), w))
    by (rewrite get_run_configurations_unfold; reflexivity).
  destruct (single_file_save_prepends_without_dedup fs_foo one (widget_with false EmptyString)
              w w (as_entry <$> history_with_foo) 20 2 (VDict [("args", VStr "old")])
              eq_refl (or_introl eq_refl) Hread eq_refl ltac:(lia))
    as (Hacc & _ & Hdup).
  split; [exact Hacc|].
  apply Hdup; [reflexivity | simpl; lia].
Defined.

(** A fixed directory that does not exist stops the save; one that
    exists passes the check. *)
Lemma invalid_fixed_directory_rejects_save_witness :
  let w := world_with (VSeq (stored_entry <$> history_with_foo)) (VInt 20) in
  let one := one_dialog "foo.py" (widget_with true "/nowhere") in
  (RunConfigOneDialog.accept fs_foo one w
     = (Ok one, after_message w (invalid_wdir_message "/nowhere")) /\
   CONF (after_message w (invalid_wdir_message "/nowhere")) = CONF w) /\
  RunConfigOptions.is_valid fs_foo (widget_with true "/tmp") w = (Ok true, w).
Proof.
  intros w one. split.
  - apply (proj1 (invalid_fixed_directory_rejects_save fs_foo one
                    (widget_with true "/nowhere") w eq_refl) eq_refl eq_refl).
  - apply (proj2 (invalid_fixed_directory_rejects_save fs_foo
                    (one_dialog "foo.py" (widget_with true "/tmp"))
                    (widget_with true "/tmp") w eq_refl)).
    right. reflexivity.
Defined.

(** * Further properties of the code *)

(** ** The configuration object *)

Lemma store_get_set_ne (c : conf_store) (section option section' option' : string)
    (v default : value) :
  (section', option') <> (section, option) ->
  store_get (store_set c section' option' v) section option default
    = store_get c section option default.
Proof.
  intros Hne. unfold store_get, store_set.
  rewrite lookup_insert_ne by exact Hne. reflexivity.
Qed.

Lemma store_get_set_eq (c : conf_store) (section option : string) (v default : value) :
  store_get (store_set c section option v) section option default = v.
Proof. unfold store_get, store_set. rewrite lookup_insert_eq. reflexivity. Qed.

(** [set] reads nine options of the store; the default configuration is
    not one of them. *)
Lemma set_dict_defaultconfiguration (c : conf_store) (v : value) (o : dict)
    (rc : RunConfiguration.t) :
  RunConfiguration.set_dict (store_set c "run" "defaultconfiguration" v) o rc
    = RunConfiguration.set_dict c o rc.
Proof.
  unfold RunConfiguration.set_dict.
  rewrite !store_get_set_ne by (vm_compute; discriminate). reflexivity.
Qed.

(** [set] reads nine options of the store; the history is not one. *)
Lemma set_dict_configurations (c : conf_store) (v : value) (o : dict)
    (rc : RunConfiguration.t) :
  RunConfiguration.set_dict (store_set c "run" "configurations" v) o rc
    = RunConfiguration.set_dict c o rc.
Proof.
  unfold RunConfiguration.set_dict.
  rewrite !store_get_set_ne by (vm_compute; discriminate). reflexivity.
Qed.

(** The constructor, when the stored default configuration is a dict. *)
Lemma init_dict (w : world) (d : dict) :
  store_get (CONF w) "run" "defaultconfiguration" (VDict []) = VDict d ->
  RunConfiguration.init w
    = (Ok (RunConfiguration.set_dict (CONF w) d RunConfiguration.blank), w).
Proof.
  intros Hd. unfold RunConfiguration.init, bind, CONF_get. rewrite Hd. reflexivity.
Qed.

(** The constructor fails exactly when the stored default configuration
    is not a mapping. *)
Lemma init_unfold (w : world) :
  RunConfiguration.init w =
    match store_get (CONF w) "run" "defaultconfiguration" (VDict []) with
    | VDict d => (Ok (RunConfiguration.set_dict (CONF w) d RunConfiguration.blank), w)
    | _ => (Raise AttributeError, w)
    end.
Proof.
  unfold RunConfiguration.init, bind, CONF_get.
  destruct (store_get _ _ _ _); reflexivity.
Qed.

(** X2. Whatever the state of a configuration, [set] of its own [get]
    mapping gives the configuration back; and since that mapping holds
    every key [set] reads, the result of applying it to any object does
    not depend on the store. *)
Theorem get_then_set_restores (c c' : conf_store) (rc rc' : RunConfiguration.t) :
  RunConfiguration.set_dict c (RunConfiguration.get rc) rc = rc /\
  RunConfiguration.set_dict c (RunConfiguration.get rc) rc'
    = RunConfiguration.set_dict c' (RunConfiguration.get rc) rc'.
Proof. destruct rc. split; reflexivity. Qed.

Section FurtherReading.

Variable fs : filesystem.

(** The read on a world with another default configuration. *)
Lemma get_run_configurations_defaultconfiguration (w : world) (v : value) :
  _get_run_configurations fs (with_defaultconfiguration w v)
    = ((_get_run_configurations fs w).1,
       with_defaultconfiguration (_get_run_configurations fs w).2 v).
Proof.
  rewrite !get_run_configurations_unfold.
  assert (Hsame : read_attempt fs (with_defaultconfiguration w v) = read_attempt fs w).
  { unfold read_attempt, stored_history, history_cap, with_defaultconfiguration.
    cbn [CONF]. rewrite !store_get_set_ne by discriminate. reflexivity. }
  rewrite Hsame.
  destruct (read_attempt fs w) as [l|e]; [reflexivity|].
  destruct e; try reflexivity. cbn [fst snd]. f_equal.
  unfold reset_history, with_defaultconfiguration, store_set. cbn [CONF shown].
  f_equal. apply insert_insert_ne. discriminate.
Qed.

Lemma get_run_configurations_keeps_defaultconfiguration (w w1 : world)
    (r : result (list entry)) :
  _get_run_configurations fs w = (r, w1) ->
  store_get (CONF w1) "run" "defaultconfiguration" (VDict [])
    = store_get (CONF w) "run" "defaultconfiguration" (VDict []).
Proof.
  intros H. destruct (get_run_configurations_world fs w w1 r H) as [->| ->];
    [reflexivity|].
  unfold reset_history. cbn [CONF]. apply store_get_set_ne. discriminate.
Qed.

(** The scan answers the same under another default configuration. *)
Lemma scan_configurations_defaultconfiguration (fname : string)
    (configurations : list entry) (w : world) (d d' : dict) :
  store_get (CONF w) "run" "defaultconfiguration" (VDict []) = VDict d ->
  (scan_configurations fname configurations (with_defaultconfiguration w (VDict d'))).1
    = (scan_configurations fname configurations w).1.
Proof.
  intros Hd. induction configurations as [|[filename options] rest IH];
    [reflexivity|].
  cbn [scan_configurations]. destruct (eq_str fname filename); [|exact IH].
  unfold bind at 1 3. rewrite (init_dict w d Hd).
  rewrite (init_dict (with_defaultconfiguration w (VDict d')) d')
    by (unfold with_defaultconfiguration; cbn [CONF]; apply store_get_set_eq).
  destruct options; try reflexivity.
  unfold bind, RunConfiguration.set, ret, with_defaultconfiguration. cbn [CONF fst].
  rewrite !set_dict_defaultconfiguration. reflexivity.
Qed.

(** X1. The configuration [get_run_configuration] returns for a file
    does not depend on the stored default configuration, as long as that
    is a mapping: [set] overwrites everything the constructor took from
    it. *)
Theorem loaded_configuration_ignores_defaultconfiguration (fname : string)
    (w : world) (d d' : dict) :
  store_get (CONF w) "run" "defaultconfiguration" (VDict []) = VDict d ->
  (get_run_configuration fs fname (with_defaultconfiguration w (VDict d'))).1
    = (get_run_configuration fs fname w).1.
Proof.
  intros Hd. unfold get_run_configuration, bind.
  rewrite get_run_configurations_defaultconfiguration.
  destruct (_get_run_configurations fs w) as [[configurations|e] w1] eqn:Hread;
    [|reflexivity].
  cbn [fst snd].
  apply (scan_configurations_defaultconfiguration fname configurations w1 d d').
  rewrite (get_run_configurations_keeps_defaultconfiguration w w1 _ Hread).
  exact Hd.
Qed.

(** X3. Whatever the store holds under the configurations key, a read
    that returns under a cap [n] returns at most [n] entries. *)
Theorem read_returns_at_most_cap (w w' : world) (n : Z) (kept : list entry) :
  history_cap (CONF w) = VInt n ->
  0 <= n ->
  _get_run_configurations fs w = (Ok kept, w') ->
  (length kept <= Z.to_nat n)%nat.
Proof.
  intros Hc Hn. rewrite get_run_configurations_unfold. unfold read_attempt.
  rewrite Hc.
  destruct (iter _) as [items|e]; cbn [rbind].
  - destruct (comprehension fs items) as [l|e]; cbn [rbind slice_to].
    + intros H. injection H as <- _.
      rewrite slice_to_int_nonneg by exact Hn. rewrite length_take. lia.
    + destruct e; intros H; try discriminate. injection H as <- _. cbn. lia.
  - destruct e; intros H; try discriminate. injection H as <- _. cbn. lia.
Qed.

End FurtherReading.

(** ** Saving and loading *)

Section FurtherSaving.

Variable fs : filesystem.

(** The entries a read returns all passed the file test. *)
Lemma get_run_configurations_kept (w w1 : world) (h : list entry) :
  _get_run_configurations fs w = (Ok h, w1) ->
  forall e, e ∈ h -> osp_isfile fs e.1 = Ok true.
Proof.
  rewrite get_run_configurations_unfold. unfold read_attempt.
  destruct (iter _) as [items|e]; cbn [rbind].
  - destruct (comprehension fs items) as [kept|e] eqn:Hc; cbn [rbind].
    + destruct (slice_to kept _) as [l|e] eqn:Hsl.
      * intros H [f o] Hin. injection H as <- _.
        apply (comprehension_kept fs items kept Hc f o).
        exact (slice_to_subset _ _ _ Hsl _ Hin).
      * destruct e; intros H; try discriminate. injection H as <- _.
        intros e Hin. inversion Hin.
    + destruct e; intros H; try discriminate. injection H as <- _.
      intros e Hin. inversion Hin.
  - destruct e; intros H; try discriminate. injection H as <- _.
    intros e Hin. inversion Hin.
Qed.

(** A read fails only with another error than ValueError, and then
    leaves the world as it was. *)
Lemma get_run_configurations_raise (w w1 : world) (e : exn) :
  _get_run_configurations fs w = (Raise e, w1) ->
  e <> ValueError /\ w1 = w.
Proof.
  rewrite get_run_configurations_unfold.
  destruct (read_attempt fs w) as [l|e']; [discriminate|].
  destruct e'; intros H; try discriminate; injection H as <- <-;
    (split; [discriminate|reflexivity]).
Qed.

(** Entries written by a save are unpacked as they were written; those
    that pass the file test are all kept. *)
Lemma comprehension_entry_values (l : list entry) :
  (forall e, e ∈ l -> osp_isfile fs e.1 = Ok true) ->
  comprehension fs (entry_value <$> l) = Ok l.
Proof.
  induction l as [|[f o] l IH]; intros Hall; [reflexivity|].
  rewrite fmap_cons. cbn [comprehension entry_value unpack2 iter rbind fst snd].
  pose proof (Hall (f, o) (list_elem_of_here _ _)) as Hf. cbn [fst] in Hf.
  rewrite Hf. cbn [rbind].
  rewrite IH; [reflexivity|].
  intros e He. apply Hall. apply list_elem_of_further. exact He.
Qed.

(** The file test raises TypeError or OverflowError, never ValueError. *)
Lemma osp_isfile_not_ValueError (path : value) :
  osp_isfile fs path <> Raise ValueError.
Proof.
  destruct path; cbn; try discriminate.
  destruct (_ && _); discriminate.
Qed.

Lemma comprehension_entry_values_not_ValueError (l : list entry) :
  comprehension fs (entry_value <$> l) <> Raise ValueError.
Proof.
  induction l as [|[f o] l IH]; [discriminate|].
  rewrite fmap_cons. cbn [comprehension entry_value unpack2 iter rbind fst snd].
  destruct (osp_isfile fs f) as [keep|e] eqn:Hf; cbn [rbind].
  - destruct (comprehension fs (entry_value <$> l)) as [kept|e]; cbn [rbind];
      [discriminate|].
    intros H. apply IH. exact H.
  - intros H. injection H as ->. exact (osp_isfile_not_ValueError f Hf).
Qed.

Lemma stored_history_after_save (w : world) (l : list entry) :
  stored_history (CONF (after_save w l)) = VSeq (entry_value <$> l).
Proof. unfold after_save. cbn [CONF]. apply store_get_set_eq. Qed.

Lemma history_cap_after_save (w : world) (l : list entry) :
  history_cap (CONF (after_save w l)) = history_cap (CONF w).
Proof. unfold after_save. cbn [CONF]. apply store_get_set_ne. discriminate. Qed.

(** Reading a history just saved, when every entry passes the file test
    and the list fits the cap. *)
Lemma read_after_save (w : world) (l : list entry) (n : Z) :
  history_cap (CONF w) = VInt n ->
  0 <= n ->
  (length l <= Z.to_nat n)%nat ->
  (forall e, e ∈ l -> osp_isfile fs e.1 = Ok true) ->
  _get_run_configurations fs (after_save w l) = (Ok l, after_save w l).
Proof.
  intros Hc Hn Hlen Hall. rewrite get_run_configurations_unfold.
  unfold read_attempt. rewrite stored_history_after_save, history_cap_after_save, Hc.
  cbn [iter rbind]. rewrite (comprehension_entry_values l Hall).
  cbn [rbind slice_to]. rewrite slice_to_int_nonneg by exact Hn.
  rewrite take_ge by exact Hlen. reflexivity.
Qed.

(** X4. Writing a list of entries that all pass the file test and
    reading the history back gives the first [n] of them, in order, and
    the read changes nothing. *)
Theorem saved_history_is_read_back (w : world) (configurations : list entry) (n : Z) :
  history_cap (CONF w) = VInt n ->
  0 <= n ->
  (forall e, e ∈ configurations -> osp_isfile fs e.1 = Ok true) ->
  (_set_run_configurations configurations;;; _get_run_configurations fs) w
    = (Ok (take (Z.to_nat n) configurations),
       after_save w (take (Z.to_nat n) configurations)).
Proof.
  intros Hc Hn Hall. unfold bind.
  rewrite (set_run_configurations_int configurations w n Hc).
  rewrite slice_to_int_nonneg by exact Hn.
  apply (read_after_save w _ n Hc Hn).
  - rewrite length_take. lia.
  - intros e He. apply Hall. exact (subseteq_take _ _ _ He).
Qed.

(** X5. Whatever entries a save writes, the next read does not reset
    the history: the stored value is always a sequence of pairs, so the
    read leaves the world as the save left it. *)
Theorem saved_history_is_never_reset (w w' : world) (configurations : list entry)
    (n : Z) (r : result (list entry)) :
  history_cap (CONF w) = VInt n ->
  (_set_run_configurations configurations;;; _get_run_configurations fs) w = (r, w') ->
  w' = after_save w (slice_to_int configurations n) /\
  CONF w' !! ("run", "configurations")
    = Some (VSeq (entry_value <$> slice_to_int configurations n)).
Proof.
  intros Hc. unfold bind.
  rewrite (set_run_configurations_int configurations w n Hc).
  rewrite get_run_configurations_unfold. unfold read_attempt.
  rewrite stored_history_after_save. cbn [iter rbind].
  pose proof (comprehension_entry_values_not_ValueError
                (slice_to_int configurations n)) as Hnot.
  rewrite history_cap_after_save, Hc.
  destruct (comprehension fs _) as [kept|e]; cbn [rbind slice_to].
  - intros H. injection H as _ <-. split; [reflexivity|].
    unfold after_save, store_set. cbn [CONF]. apply lookup_insert_eq.
  - destruct e; try (exfalso; apply Hnot; reflexivity);
      intros H; injection H as _ <-; (split; [reflexivity|]);
      unfold after_save, store_set; cbn [CONF]; apply lookup_insert_eq.
Qed.

End FurtherSaving.

(** ** The single-file dialog *)

Section FurtherSingleFile.

Variable fs : filesystem.

Lemma eq_str_true (fname : string) (v : value) :
  eq_str fname v = true -> v = VStr fname.
Proof.
  destruct v; cbn; try discriminate.
  intros H. apply String.eqb_eq in H. congruence.
Qed.

Lemma scan_configurations_none (fname : string) (configurations : list entry)
    (w : world) :
  (forall e, e ∈ configurations -> eq_str fname e.1 = false) ->
  scan_configurations fname configurations w = (Ok None, w).
Proof.
  induction configurations as [|[f o] rest IH]; intros Hall; [reflexivity|].
  cbn [scan_configurations].
  pose proof (Hall (f, o) (list_elem_of_here _ _)) as Hf. cbn [fst] in Hf.
  rewrite Hf. apply IH. intros e He. apply Hall.
  apply list_elem_of_further. exact He.
Qed.

(** The entries of a read, cut once more, still all pass the file test. *)
Lemma take_kept (w w1 : world) (h : list entry) (k : nat) :
  _get_run_configurations fs w = (Ok h, w1) ->
  forall e, e ∈ take k h -> osp_isfile fs e.1 = Ok true.
Proof.
  intros Hr e He. apply (get_run_configurations_kept fs w w1 h Hr).
  exact (subseteq_take _ _ _ He).
Qed.

(** X6. Saving then loading. After the single-file [accept] has saved
    the settings of a file that exists, under a cap of at least 1,
    [get_run_configuration] of that file returns a configuration whose
    fields are the values of the controls, and changes nothing; an older
    entry of the file, still in the history, does not shadow it. *)
Theorem saved_configuration_is_loaded (self : RunConfigOneDialog.t)
    (widget : RunConfigOptions.t) (fname : string) (w w1 : world)
    (h : list entry) (n : Z) (d : dict) :
  RunConfigOneDialog.runconfigoptions self = Some widget ->
  RunConfigOneDialog.filename self = VStr fname ->
  wdir_accepted fs widget ->
  isfile fs fname = true ->
  _get_run_configurations fs w = (Ok h, w1) ->
  history_cap (CONF w) = VInt n ->
  1 <= n ->
  store_get (CONF w) "run" "defaultconfiguration" (VDict []) = VDict d ->
  exists self' w' rc,
    RunConfigOneDialog.accept fs self w = (Ok self', w') /\
    get_run_configuration fs fname w' = (Ok (Some rc), w') /\
    round_trip_fields rc = control_values widget.
Proof.
  intros Hw Hname Hv Hfile Hr Hc Hn Hd.
  pose proof (accept_one_saves fs self widget w w1 h n Hw Hv Hr Hc) as Hacc.
  rewrite Hname in Hacc. rewrite slice_to_int_nonneg in Hacc by lia.
  replace (Z.to_nat n) with (S (Z.to_nat (n - 1))) in Hacc by lia.
  cbn [take] in Hacc.
  set (new := (VStr fname, VDict (RunConfigOptions.get widget).1)) in *.
  set (saved := new :: take (Z.to_nat (n - 1)) h) in *.
  assert (Hc1 : history_cap (CONF w1) = VInt n)
    by (rewrite (get_run_configurations_keeps_cap fs w w1 _ Hr); exact Hc).
  assert (Hread : _get_run_configurations fs (after_save w1 saved)
                  = (Ok saved, after_save w1 saved)).
  { apply (read_after_save fs w1 saved n Hc1); [lia| |].
    - unfold saved. cbn [length]. rewrite length_take. lia.
    - intros e He. apply elem_of_cons in He as [->|He].
      + cbn. rewrite Hfile. reflexivity.
      + exact (take_kept w w1 h _ Hr e He). }
  eexists _, (after_save w1 saved), _. split; [exact Hacc|].
  split.
  - unfold get_run_configuration, bind at 1. rewrite Hread.
    remember (after_save w1 saved) as w' eqn:Hw'.
    unfold saved, new. cbn [scan_configurations eq_str].
    rewrite String.eqb_refl. unfold bind at 1.
    rewrite (init_dict w' d).
    + subst w'. reflexivity.
    + subst w'. unfold after_save. cbn [CONF].
      rewrite store_get_set_ne by discriminate.
      rewrite (get_run_configurations_keeps_defaultconfiguration fs w w1 _ Hr).
      exact Hd.
  - reflexivity.
Qed.

(** X7. The single-file [accept] does not test that the file itself
    exists. For a file that does not, the entry is stored, in front when
    the cap is at least 1, and yet [get_run_configuration] of the file
    returns None. *)
Theorem saved_configuration_of_missing_file_is_not_loaded
    (self : RunConfigOneDialog.t) (widget : RunConfigOptions.t) (fname : string)
    (w w1 : world) (h : list entry) (n : Z) :
  RunConfigOneDialog.runconfigoptions self = Some widget ->
  RunConfigOneDialog.filename self = VStr fname ->
  wdir_accepted fs widget ->
  isfile fs fname = false ->
  _get_run_configurations fs w = (Ok h, w1) ->
  history_cap (CONF w) = VInt n ->
  1 <= n ->
  exists self' w' rest,
    RunConfigOneDialog.accept fs self w = (Ok self', w') /\
    stored_history (CONF w')
      = VSeq (VSeq [VStr fname; VDict (RunConfigOptions.get widget).1] :: rest) /\
    get_run_configuration fs fname w' = (Ok None, w').
Proof.
  intros Hw Hname Hv Hfile Hr Hc Hn.
  pose proof (accept_one_saves fs self widget w w1 h n Hw Hv Hr Hc) as Hacc.
  rewrite Hname in Hacc. rewrite slice_to_int_nonneg in Hacc by lia.
  replace (Z.to_nat n) with (S (Z.to_nat (n - 1))) in Hacc by lia.
  cbn [take] in Hacc.
  set (new := (VStr fname, VDict (RunConfigOptions.get widget).1)) in *.
  set (older := take (Z.to_nat (n - 1)) h) in *.
  assert (Hc1 : history_cap (CONF w1) = VInt n)
    by (rewrite (get_run_configurations_keeps_cap fs w w1 _ Hr); exact Hc).
  assert (Hread : _get_run_configurations fs (after_save w1 (new :: older))
                  = (Ok older, after_save w1 (new :: older))).
  { rewrite get_run_configurations_unfold. unfold read_attempt.
    rewrite stored_history_after_save, history_cap_after_save, Hc1.
    cbn [iter rbind]. rewrite fmap_cons.
    cbn [comprehension new entry_value unpack2 iter rbind fst snd osp_isfile].
    rewrite Hfile.
    rewrite (comprehension_entry_values fs older)
      by (intros e He; exact (take_kept w w1 h _ Hr e He)).
    cbn [rbind slice_to]. rewrite slice_to_int_nonneg by lia.
    rewrite take_ge; [reflexivity|].
    unfold older. rewrite length_take. lia. }
  eexists _, (after_save w1 (new :: older)), (entry_value <$> older).
  split; [exact Hacc|]. split.
  - rewrite stored_history_after_save. reflexivity.
  - unfold get_run_configuration, bind at 1. rewrite Hread.
    apply scan_configurations_none. intros e He.
    destruct (eq_str fname e.1) eqn:E; [|reflexivity].
    apply eq_str_true in E.
    pose proof (take_kept w w1 h _ Hr e He) as Hk.
    rewrite E in Hk. cbn in Hk. congruence.
Qed.

(** X8. A single-file save also prunes: it writes back the history as
    read, so the entries of every other file that no longer exists are
    gone from the store afterwards. *)
Theorem single_file_save_prunes_missing_files (self : RunConfigOneDialog.t)
    (widget : RunConfigOptions.t) (w : world) (l : list (string * value)) (n : Z) :
  RunConfigOneDialog.runconfigoptions self = Some widget ->
  wdir_accepted fs widget ->
  stored_history (CONF w) = VSeq (stored_entry <$> l) ->
  history_cap (CONF w) = VInt n ->
  0 <= n ->
  let new := (RunConfigOneDialog.filename self, VDict (RunConfigOptions.get widget).1) in
  let saved := take (Z.to_nat n) (new :: (as_entry <$> existing fs l)) in
  (exists self', RunConfigOneDialog.accept fs self w = (Ok self', after_save w saved)) /\
  stored_history (CONF (after_save w saved)) = VSeq (entry_value <$> saved) /\
  (forall name options,
     isfile fs name = false ->
     VStr name <> RunConfigOneDialog.filename self ->
     (VStr name, options) ∉ saved).
Proof.
  intros Hw Hv Hs Hc Hn new saved. split; [|split].
  - eexists.
    rewrite (accept_one_saves fs self widget w w _ n Hw Hv
               (get_run_configurations_well_formed fs w l n Hs Hc) Hc).
    unfold saved, new. rewrite !slice_to_int_nonneg by exact Hn.
    replace (take (Z.to_nat n) (_ :: take (Z.to_nat n) (as_entry <$> existing fs l)))
      with (take (Z.to_nat n)
              ((RunConfigOneDialog.filename self, VDict (RunConfigOptions.get widget).1)
                 :: (as_entry <$> existing fs l))); [reflexivity|].
    destruct (Z.to_nat n) as [|k]; [reflexivity|]. cbn [take]. f_equal.
    rewrite take_take. f_equal. lia.
  - apply stored_history_after_save.
  - intros name options Hgone Hne Hin.
    apply subseteq_take in Hin. apply elem_of_cons in Hin as [Heq|Hin].
    + apply Hne. unfold new in Heq. congruence.
    + apply list_elem_of_fmap in Hin as [[name' o'] [Heq Hin]].
      unfold as_entry in Heq. cbn [fst snd] in Heq. injection Heq as -> ->.
      unfold existing in Hin. apply list_elem_of_filter in Hin as [Hex _].
      cbn [fst] in Hex. rewrite Hgone in Hex. exact Hex.
Qed.

(** X9. When the check passes but the read of the history fails, the
    single-file [accept] fails with the same error: nothing is saved, the
    world is as before, and the error is never ValueError. *)
Theorem failed_read_blocks_single_file_save (self : RunConfigOneDialog.t)
    (widget : RunConfigOptions.t) (w w1 : world) (e : exn) :
  RunConfigOneDialog.runconfigoptions self = Some widget ->
  wdir_accepted fs widget ->
  _get_run_configurations fs w = (Raise e, w1) ->
  RunConfigOneDialog.accept fs self w = (Raise e, w) /\ e <> ValueError.
Proof.
  intros Hw Hv Hr.
  destruct (get_run_configurations_raise fs w w1 e Hr) as [Hne ->].
  split; [|exact Hne].
  unfold RunConfigOneDialog.accept. rewrite Hw.
  unfold bind at 1. rewrite (is_valid_accepts fs widget w Hv). cbn [negb].
  unfold bind at 1. rewrite Hr. reflexivity.
Qed.

End FurtherSingleFile.

(** ** The multi-file dialog *)

Section FurtherMultiFile.

Variable fs : filesystem.

(** The loop of [accept] when the page shown, if any, passes the check. *)
Lemma collect_accepted (items : list string) (current : Z)
    (widgets : list RunConfigOptions.t) :
  forall (index : nat) (w : world),
  (forall i widget, widgets !! i = Some widget ->
     Z.of_nat (index + i) = current -> wdir_accepted fs widget) ->
  RunConfigDialog.collect fs items current index widgets w
    = (Ok (Some (page_entries items index widgets),
           (fun widget => (RunConfigOptions.get widget).2) <$> widgets), w).
Proof.
  induction widgets as [|widget rest IH]; intros index w Hcur; [reflexivity|].
  cbn [RunConfigDialog.collect page_entries].
  assert (Hvalid :
    (if Z.of_nat index =? current
     then RunConfigOptions.is_valid fs widget else ret true) w = (Ok true, w)).
  { destruct (Z.of_nat index =? current) eqn:E; [|reflexivity].
    apply is_valid_accepts. apply (Hcur 0%nat widget eq_refl).
    apply Z.eqb_eq in E. rewrite Nat.add_0_r. exact E. }
  unfold bind at 1. rewrite Hvalid. cbn [negb RunConfigOptions.get].
  unfold bind at 1. rewrite (IH (S index) w).
  - reflexivity.
  - intros i widget' Hi Hc. apply (Hcur (S i) widget' Hi).
    rewrite <- Hc. lia.
Qed.

(** The loop of [accept] when the page shown fails the check. *)
Lemma collect_refused (items : list string) (current : Z)
    (widgets : list RunConfigOptions.t) :
  forall (index i : nat) (widget : RunConfigOptions.t) (w : world),
  widgets !! i = Some widget ->
  current = Z.of_nat (index + i) ->
  RunConfigOptions.fixed_dir_radio widget = true ->
  isdir fs (RunConfigOptions.wd_edit widget) = false ->
  exists stack',
    RunConfigDialog.collect fs items current index widgets w
      = (Ok (None, stack'),
         after_message w (invalid_wdir_message (RunConfigOptions.wd_edit widget))).
Proof.
  induction widgets as [|first rest IH]; intros index i widget w Hi Hc Hf Hd;
    [discriminate|].
  cbn [RunConfigDialog.collect]. destruct i as [|i].
  - injection Hi as ->.
    replace (Z.of_nat index =? current) with true
      by (symmetry; apply Z.eqb_eq; lia).
    unfold bind at 1. rewrite (is_valid_refuses fs widget w Hf Hd).
    eexists. reflexivity.
  - replace (Z.of_nat index =? current) with false
      by (symmetry; apply Z.eqb_neq; lia).
    unfold bind at 1. cbn [ret negb RunConfigOptions.get].
    unfold bind at 1.
    destruct (IH (S index) i widget w Hi ltac:(lia) Hf Hd) as [stack' ->].
    eexists. reflexivity.
Qed.

(** X10. The multi-file [accept] checks the page it shows and no other.
    When that page passes (or no page is shown), every page is saved: the
    stored history is the list of (item text, mapping of the widget), in
    page order, cut by the cap, whatever the directories of the other
    pages and whether or not the files exist; the dialog is accepted. *)
Theorem multi_file_save_stores_every_page (self : RunConfigDialog.t)
    (w : world) (n : Z) :
  history_cap (CONF w) = VInt n ->
  (forall i widget, RunConfigDialog.stack self !! i = Some widget ->
     Z.of_nat i = RunConfigDialog.currentIndex self -> wdir_accepted fs widget) ->
  exists self',
    RunConfigDialog.accept fs self w
      = (Ok self',
         after_save w
           (slice_to_int
              (page_entries (RunConfigDialog.combo self) 0 (RunConfigDialog.stack self))
              n)) /\
    RunConfigDialog.result self' = Accepted.
Proof.
  intros Hc Hcur. unfold RunConfigDialog.accept, bind at 1.
  rewrite (collect_accepted _ _ _ 0%nat w Hcur). cbn [fst snd].
  unfold bind at 1. rewrite (set_run_configurations_int _ w n Hc).
  eexists. split; reflexivity.
Qed.

(** X11. When the page the multi-file dialog shows has the fixed
    directory selected and the directory does not exist, [accept] shows
    one message naming it and returns: the store is as before and the
    dialog is not accepted. *)
Theorem multi_file_save_refused_on_shown_page (self : RunConfigDialog.t)
    (i : nat) (widget : RunConfigOptions.t) (w : world) :
  RunConfigDialog.stack self !! i = Some widget ->
  RunConfigDialog.currentIndex self = Z.of_nat i ->
  RunConfigOptions.fixed_dir_radio widget = true ->
  isdir fs (RunConfigOptions.wd_edit widget) = false ->
  exists self',
    RunConfigDialog.accept fs self w
      = (Ok self',
         after_message w (invalid_wdir_message (RunConfigOptions.wd_edit widget))) /\
    RunConfigDialog.result self' = RunConfigDialog.result self /\
    CONF (after_message w (invalid_wdir_message (RunConfigOptions.wd_edit widget)))
      = CONF w.
Proof.
  intros Hi Hc Hf Hd. unfold RunConfigDialog.accept, bind at 1.
  destruct (collect_refused (RunConfigDialog.combo self)
              (RunConfigDialog.currentIndex self) (RunConfigDialog.stack self)
              0%nat i widget w Hi Hc Hf Hd) as [stack' ->].
  cbn [fst snd]. eexists. repeat split.
Qed.

Lemma find_index_found (fname : string) (configurations : list entry) :
  forall (index k : nat),
  RunConfigDialog.find_index fname index configurations = Some k ->
  exists j options,
    k = (index + j)%nat /\
    configurations !! j = Some (VStr fname, options) /\
    forall j' e, (j' < j)%nat -> configurations !! j' = Some e -> e.1 <> VStr fname.
Proof.
  induction configurations as [|[f o] rest IH]; intros index k H; [discriminate|].
  cbn [RunConfigDialog.find_index] in H.
  destruct (eq_str fname f) eqn:E.
  - injection H as <-. apply eq_str_true in E as ->.
    exists 0%nat, o. split; [lia|]. split; [reflexivity|]. intros j' e Hlt. lia.
  - destruct (IH (S index) k H) as (j & options & -> & Hj & Hbefore).
    exists (S j), options. split; [lia|]. split; [exact Hj|].
    intros [|j'] e Hlt He.
    + injection He as <-. cbn [fst]. intros ->.
      cbn in E. rewrite String.eqb_refl in E. discriminate.
    + apply (Hbefore j' e); [lia|exact He].
Qed.

Lemma find_index_absent (fname : string) (configurations : list entry) :
  forall (index : nat),
  RunConfigDialog.find_index fname index configurations = None ->
  forall e, e ∈ configurations -> e.1 <> VStr fname.
Proof.
  induction configurations as [|[f o] rest IH]; intros index H e He;
    [inversion He|].
  cbn [RunConfigDialog.find_index] in H.
  destruct (eq_str fname f) eqn:E; [discriminate|].
  apply elem_of_cons in He as [->|He].
  - cbn [fst]. intros ->. cbn in E. rewrite String.eqb_refl in E. discriminate.
  - exact (IH (S index) H e He).
Qed.

(** X12. Opening the multi-file dialog for a file: the pages [setup]
    prepares always hold one for the file, and the index it selects is
    that of the first such page. The pages are the history as read, with
    one temporary entry in front exactly when the history has no entry
    for the file; nothing is written to the store beyond what the read
    itself does. *)
Theorem setup_selects_page_of_file (fname : string) (w w' : world)
    (configurations : list entry) (index : nat) :
  RunConfigDialog.setup_configurations fs fname w = (Ok (configurations, index), w') ->
  (exists options, configurations !! index = Some (VStr fname, options)) /\
  (forall j e, (j < index)%nat -> configurations !! j = Some e -> e.1 <> VStr fname) /\
  (exists view, _get_run_configurations fs w = (Ok view, w') /\
     (configurations = view \/
      (index = 0%nat /\ (forall e, e ∈ view -> e.1 <> VStr fname) /\
       exists options, configurations = (VStr fname, VDict options) :: view))).
Proof.
  unfold RunConfigDialog.setup_configurations, bind at 1.
  destruct (_get_run_configurations fs w) as [[view|e] w1] eqn:Hread;
    [|discriminate].
  destruct (RunConfigDialog.find_index fname 0 view) as [k|] eqn:Hfind.
  - intros H. injection H as <- <- <-.
    destruct (find_index_found fname view 0%nat k Hfind)
      as (j & options & -> & Hj & Hbefore).
    split; [exists options; exact Hj|]. split; [exact Hbefore|].
    exists view. split; [reflexivity|]. left. reflexivity.
  - unfold bind at 1. rewrite init_unfold.
    destruct (store_get (CONF w1) "run" "defaultconfiguration" (VDict []));
      try discriminate.
    unfold ret. intros H. injection H as <- <- <-.
    split; [eexists; reflexivity|]. split; [intros j e Hlt; lia|].
    exists view. split; [reflexivity|]. right.
    split; [reflexivity|]. split; [exact (find_index_absent fname view 0%nat Hfind)|].
    eexists. reflexivity.
Qed.

(** X13. Choosing a directory. A cancelled chooser leaves the widget as
    it was. A chosen directory is shown in the directory field and kept
    in [dir]; when it exists, the widget then passes [is_valid] whatever
    the mode selected, and [get] reports it under the key dir. *)
Theorem selected_directory_is_valid_and_reported (home : string)
    (choose : string -> string) (self : RunConfigOptions.t) (w : world) :
  let basedir := if isdir fs (RunConfigOptions.wd_edit self)
                 then RunConfigOptions.wd_edit self else home in
  let self' := RunConfigOptions.select_directory fs home choose self in
  (choose basedir = EmptyString -> self' = self) /\
  (choose basedir <> EmptyString ->
   RunConfigOptions.wd_edit self' = choose basedir /\
   RunConfigOptions.dir self' = VStr (choose basedir) /\
   dict_get (RunConfigOptions.get self').1 "dir" VNone = VStr (choose basedir) /\
   (isdir fs (choose basedir) = true ->
    RunConfigOptions.is_valid fs self' w = (Ok true, w))).
Proof.
  intros basedir self'. unfold self', RunConfigOptions.select_directory.
  assert (Hbase : (if negb (isdir fs (RunConfigOptions.wd_edit self))
                   then home else RunConfigOptions.wd_edit self) = basedir)
    by (unfold basedir; destruct (isdir fs _); reflexivity).
  rewrite Hbase. cbn [truthy]. split.
  - intros ->. reflexivity.
  - intros Hne.
    destruct (String.eqb (choose basedir) EmptyString) eqn:E;
      [apply String.eqb_eq in E; contradiction|].
    cbn [negb]. repeat split.
    intros Hdir. apply is_valid_accepts. right. exact Hdir.
Qed.

End FurtherMultiFile.

(** ** The configuration a dialog hands back *)

(** X14. The configuration [get_configuration] returns after the
    single-file [accept]. After a save it holds the values of the
    controls, so that [get_arguments] is the text of the options field
    when its box is checked and the empty string otherwise. After a
    refused save it is the object the widget had before, untouched by the
    controls. *)
Theorem accepted_dialog_hands_back_controls (fs : filesystem)
    (self : RunConfigOneDialog.t) (widget : RunConfigOptions.t) (w : world) :
  RunConfigOneDialog.runconfigoptions self = Some widget ->
  (wdir_accepted fs widget ->
   forall (h : list entry) (w1 : world) (n : Z),
     _get_run_configurations fs w = (Ok h, w1) ->
     history_cap (CONF w) = VInt n ->
     exists self' w' rc,
       RunConfigOneDialog.accept fs self w = (Ok self', w') /\
       RunConfigOneDialog.get_configuration self' = Ok rc /\
       round_trip_fields rc = control_values widget /\
       RunConfiguration.get_arguments rc
         = VStr (if RunConfigOptions.clo_cb widget
                 then RunConfigOptions.clo_edit widget else EmptyString) /\
       RunConfiguration.get_python_arguments rc
         = VStr (if RunConfigOptions.pclo_cb widget
                 then RunConfigOptions.pclo_edit widget else EmptyString)) /\
  (RunConfigOptions.fixed_dir_radio widget = true ->
   isdir fs (RunConfigOptions.wd_edit widget) = false ->
   exists self' w',
     RunConfigOneDialog.accept fs self w = (Ok self', w') /\
     RunConfigOneDialog.get_configuration self'
       = Ok (RunConfigOptions.runconf widget)).
Proof.
  intros Hw. split.
  - intros Hv h w1 n Hr Hc.
    eexists _, _, _. split;
      [exact (accept_one_saves fs self widget w w1 h n Hw Hv Hr Hc)|].
    split; [reflexivity|]. split; [reflexivity|].
    unfold RunConfiguration.get_arguments, RunConfiguration.get_python_arguments.
    cbn. split.
    + destruct (RunConfigOptions.clo_cb widget); reflexivity.
    + destruct (RunConfigOptions.pclo_cb widget); reflexivity.
  - intros Hf Hd. eexists _, _. split;
      [exact (accept_one_refused fs self widget w Hw Hf Hd)|].
    unfold RunConfigOneDialog.get_configuration. rewrite Hw. reflexivity.
Qed.

(** ** The further properties on concrete worlds *)

(** Settles [e ∈ l -> P e] for a list given in full. *)
Ltac each_element He :=
  repeat (apply elem_of_cons in He as [->|He]; [reflexivity|]); inversion He.

Lemma loaded_configuration_ignores_defaultconfiguration_witness :
  let w := world_with (VSeq (stored_entry <$> history_with_foo)) (VInt 20) in
  (get_run_configuration fs_foo "foo.py"
     (with_defaultconfiguration w (VDict [("args", VStr "-x")]))).1
    = (get_run_configuration fs_foo "foo.py" w).1.
Proof.
  intros w.
  exact (loaded_configuration_ignores_defaultconfiguration fs_foo "foo.py" w []
           [("args", VStr "-x")] eq_refl).
Defined.

Lemma read_returns_at_most_cap_witness :
  let w := world_with (VSeq (stored_entry <$> history_A_to_E)) (VInt 3) in
  exists kept,
    _get_run_configurations fs_A_to_E w = (Ok kept, w) /\ (length kept <= 3)%nat.
Proof.
  intros w.
  assert (Hread : _get_run_configurations fs_A_to_E w
    = (Ok [(VStr "A", VDict []); (VStr "B", VDict []); (VStr "C", VDict [])], w))
    by (rewrite get_run_configurations_unfold; reflexivity).
  eexists. split; [exact Hread|].
  exact (read_returns_at_most_cap fs_A_to_E w w 3 _ eq_refl ltac:(lia) Hread).
Defined.

Lemma saved_history_is_read_back_witness :
  let w := world_with (VSeq []) (VInt 2) in
  (_set_run_configurations (as_entry <$> history_with_foo);;;
   _get_run_configurations fs_foo) w
    = (Ok [(VStr "a.py", VDict []); (VStr "b.py", VDict [])],
       after_save w [(VStr "a.py", VDict []); (VStr "b.py", VDict [])]).
Proof.
  intros w.
  assert (Hall : forall e : entry,
            e ∈ (as_entry <$> history_with_foo) -> osp_isfile fs_foo e.1 = Ok true)
    by (intros e He; each_element He).
  exact (saved_history_is_read_back fs_foo w (as_entry <$> history_with_foo) 2
           eq_refl ltac:(lia) Hall).
Defined.

(** An entry whose filename is None is saved as it is; the next read
    fails on it, and does not reset the history. *)
Lemma saved_history_is_never_reset_witness :
  let w := world_with (VSeq []) (VInt 20) in
  let run := (_set_run_configurations [(VNone, VNone)];;;
              _get_run_configurations fs_foo) w in
  run.2 = after_save w [(VNone, VNone)] /\
  CONF run.2 !! ("run", "configurations") = Some (VSeq [VSeq [VNone; VNone]]).
Proof.
  intros w run.
  exact (saved_history_is_never_reset fs_foo w run.2 [(VNone, VNone)] 20 run.1
           eq_refl (surjective_pairing run)).
Defined.

Lemma saved_configuration_is_loaded_witness :
  let w := world_with (VSeq (stored_entry <$> history_with_foo)) (VInt 20) in
  let one := one_dialog "foo.py" (widget_with true "/tmp") in
  exists self' w' rc,
    RunConfigOneDialog.accept fs_foo one w = (Ok self', w') /\
    get_run_configuration fs_foo "foo.py" w' = (Ok (Some rc), w') /\
    round_trip_fields rc = control_values (widget_with true "/tmp").
Proof.
  intros w one.
  assert (Hread : _get_run_configurations fs_foo w = (Ok (as_entry <$> history_with_foo), w))
    by (rewrite get_run_configurations_unfold; reflexivity).
  exact (saved_configuration_is_loaded fs_foo one (widget_with true "/tmp") "foo.py"
           w w _ 20 [] eq_refl eq_refl (or_intror eq_refl) eq_refl Hread eq_refl
           ltac:(lia) eq_refl).
Defined.

Lemma saved_configuration_of_missing_file_is_not_loaded_witness :
  let w := world_with (VSeq (stored_entry <$> history_with_foo)) (VInt 20) in
  let one := one_dialog "ghost.py" (widget_with false EmptyString) in
  exists self' w' rest,
    RunConfigOneDialog.accept fs_foo one w = (Ok self', w') /\
    stored_history (CONF w')
      = VSeq (VSeq [VStr "ghost.py";
                    VDict (RunConfigOptions.get (widget_with false EmptyString)).1]
                :: rest) /\
    get_run_configuration fs_foo "ghost.py" w' = (Ok None, w').
Proof.
  intros w one.
  assert (Hread : _get_run_configurations fs_foo w = (Ok (as_entry <$> history_with_foo), w))
    by (rewrite get_run_configurations_unfold; reflexivity).
  exact (saved_configuration_of_missing_file_is_not_loaded fs_foo one
           (widget_with false EmptyString) "ghost.py" w w _ 20
           eq_refl eq_refl (or_introl eq_refl) eq_refl Hread eq_refl ltac:(lia)).
Defined.

(** Saving foo.py drops the stored entry of gone.py. *)
Lemma single_file_save_prunes_missing_files_witness :
  let w := world_with (VSeq (stored_entry <$> history_with_gone)) (VInt 20) in
  let one := one_dialog "foo.py" (widget_with false EmptyString) in
  let saved := (VStr "foo.py", VDict (RunConfigOptions.get (widget_with false EmptyString)).1)
               :: [(VStr "a.py", VDict []); (VStr "b.py", VDict []); (VStr "c.py", VDict [])] in
  (exists self', RunConfigOneDialog.accept fs_abc one w = (Ok self', after_save w saved)) /\
  (VStr "gone.py", VDict []) ∉ saved.
Proof.
  intros w one saved.
  destruct (single_file_save_prunes_missing_files fs_abc one
              (widget_with false EmptyString) w history_with_gone 20
              eq_refl (or_introl eq_refl) eq_refl eq_refl ltac:(lia))
    as (Hacc & _ & Hpruned).
  split; [exact Hacc|].
  apply (Hpruned "gone.py" (VDict [])); [reflexivity|discriminate].
Defined.

Lemma failed_read_blocks_single_file_save_witness :
  let w := world_with (VSeq [VInt 7]) (VInt 20) in
  RunConfigOneDialog.accept fs_foo (one_dialog "foo.py" (widget_with false EmptyString)) w
    = (Raise TypeError, w).
Proof.
  intros w.
  assert (Hread : _get_run_configurations fs_foo w = (Raise TypeError, w))
    by (rewrite get_run_configurations_unfold; reflexivity).
  exact (proj1 (failed_read_blocks_single_file_save fs_foo
                  (one_dialog "foo.py" (widget_with false EmptyString))
                  (widget_with false EmptyString) w w TypeError
                  eq_refl (or_introl eq_refl) Hread)).
Defined.

(** The second page has a fixed directory that does not exist, and its
    file does not exist either; it is saved all the same. *)
Lemma multi_file_save_stores_every_page_witness :
  let w := world_with (VSeq []) (VInt 20) in
  let multi := multi_dialog [("a.py", widget_with false EmptyString);
                             ("ghost.py", widget_with true "/nowhere")] in
  exists self',
    RunConfigDialog.accept fs_foo multi w
      = (Ok self',
         after_save w
           [(VStr "a.py", VDict (RunConfigOptions.get (widget_with false EmptyString)).1);
            (VStr "ghost.py", VDict (RunConfigOptions.get (widget_with true "/nowhere")).1)]) /\
    RunConfigDialog.result self' = Accepted.
Proof.
  intros w multi.
  apply (multi_file_save_stores_every_page fs_foo multi w 20 eq_refl).
  intros i widget Hi Hc. destruct i as [|i]; [|cbn in Hc; lia].
  injection Hi as <-. left. reflexivity.
Defined.

Lemma multi_file_save_refused_on_shown_page_witness :
  let w := world_with (VSeq []) (VInt 20) in
  let multi := multi_dialog [("a.py", widget_with true "/nowhere");
                             ("b.py", widget_with false EmptyString)] in
  exists self',
    RunConfigDialog.accept fs_foo multi w
      = (Ok self', after_message w (invalid_wdir_message "/nowhere")) /\
    RunConfigDialog.result self' = Rejected /\
    CONF (after_message w (invalid_wdir_message "/nowhere")) = CONF w.
Proof.
  intros w multi.
  exact (multi_file_save_refused_on_shown_page fs_foo multi 0
           (widget_with true "/nowhere") w eq_refl eq_refl eq_refl eq_refl).
Defined.

(** A file already in the history gets its own page, here the third; a
    file that is not gets a temporary first page. *)
Lemma setup_selects_page_of_file_witness :
  let w := world_with (VSeq (stored_entry <$> history_with_foo)) (VInt 20) in
  (exists options, (as_entry <$> history_with_foo) !! 2%nat = Some (VStr "foo.py", options)) /\
  (exists configurations options,
     RunConfigDialog.setup_configurations fs_foo "new.py" w
       = (Ok (configurations, 0%nat), w) /\
     configurations !! 0%nat = Some (VStr "new.py", options)).
Proof.
  intros w. split.
  - assert (Hfound : RunConfigDialog.setup_configurations fs_foo "foo.py" w
                     = (Ok (as_entry <$> history_with_foo, 2%nat), w))
      by (unfold RunConfigDialog.setup_configurations, bind;
          rewrite get_run_configurations_unfold; reflexivity).
    exact (proj1 (setup_selects_page_of_file fs_foo "foo.py" w w _ _ Hfound)).
  - assert (Hnew : RunConfigDialog.setup_configurations fs_foo "new.py" w
                   = (Ok ((VStr "new.py",
                           VDict (RunConfiguration.get
                                    (RunConfiguration.set_dict (CONF w) []
                                       RunConfiguration.blank)))
                            :: (as_entry <$> history_with_foo), 0%nat), w))
      by (unfold RunConfigDialog.setup_configurations, bind;
          rewrite get_run_configurations_unfold; reflexivity).
    eexists. 
    destruct (proj1 (setup_selects_page_of_file fs_foo "new.py" w w _ _ Hnew))
      as [options Hpage].
    exists options. split; [exact Hnew|exact Hpage].
Defined.

Lemma selected_directory_is_valid_and_reported_witness :
  let w := world_with (VSeq []) (VInt 20) in
  let chosen := RunConfigOptions.select_directory fs_foo "/home" (fun _ => "/tmp")
                  (widget_with true "/nowhere") in
  RunConfigOptions.wd_edit chosen = "/tmp" /\
  RunConfigOptions.is_valid fs_foo chosen w = (Ok true, w).
Proof.
  intros w chosen.
  destruct (proj2 (selected_directory_is_valid_and_reported fs_foo "/home"
                     (fun _ => "/tmp") (widget_with true "/nowhere") w)
              ltac:(discriminate))
    as (Hedit & _ & _ & Hvalid).
  split; [exact Hedit|exact (Hvalid eq_refl)].
Defined.

Lemma accepted_dialog_hands_back_controls_witness :
  let w := world_with (VSeq (stored_entry <$> history_with_foo)) (VInt 20) in
  let one := one_dialog "foo.py" (widget_with true "/nowhere") in
  exists self' w',
    RunConfigOneDialog.accept fs_foo one w = (Ok self', w') /\
    RunConfigOneDialog.get_configuration self' = Ok RunConfiguration.blank.
Proof.
  intros w one.
  exact (proj2 (accepted_dialog_hands_back_controls fs_foo one
                  (widget_with true "/nowhere") w eq_refl) eq_refl eq_refl).
Defined.
